(** * The Helm release module ([lib/ansible/modules/cloud/misc/helm.py])

    A shallow embedding of the module's functions over a small model of the
    Python values they handle, and the properties of its reconciliation
    path.  Python raises are kept as values carrying the source line they
    come from, so that every evaluation below can be re-traced on the
    source by hand. *)

From Stdlib Require Import ZArith List String Ascii Bool Lia Permutation.
From Stdlib Require Import Decimal DecimalString.
Import ListNotations.
Local Open Scope string_scope.
Local Open Scope Z_scope.
Set Warnings "-register-all".

(** ** Python values *)

(** The values that flow through the module: parameters, command objects,
    what [yaml.safe_load] returns, and tuples.  A dict keeps its items as
    an association list with string keys.  Floats are left out: nothing
    below says that a value equals itself, which a NaN would not. *)
Inductive pyval : Type :=
| PNone
| PBool (b : bool)
| PInt (z : Z)
| PStr (s : string)
| PList (l : list pyval)
| PTuple (l : list pyval)
| PDict (d : list (string * pyval)).

(** Exceptions, with the line of [helm.py] that raises them. *)
Inductive exn : Type :=
| TypeError (line : nat)
| AttributeError (line : nat)
| KeyError (line : nat) (key : string)
| ValueError (line : nat)
| UnboundLocalError (line : nat) (var : string)
| LibraryError (line : nat).

(** The two ways the module leaves the process: [module.fail_json] and
    [module.exit_json]. *)
Inductive final : Type :=
| FailJson (msg : string) (command : option string)
| ExitJson (changed stdout stderr : pyval).

Inductive res (A : Type) : Type :=
| Ok (a : A)
| Raise (e : exn)
| Exit (f : final).
Arguments Ok {A} a.
Arguments Raise {A} e.
Arguments Exit {A} f.

Definition res_bind {A B} (r : res A) (k : A -> res B) : res B :=
  match r with
  | Ok a => k a
  | Raise e => Raise e
  | Exit f => Exit f
  end.

(** *** Dict access *)

Fixpoint dict_get (k : string) (d : list (string * pyval)) : option pyval :=
  match d with
  | [] => None
  | (k', v) :: d' => if String.eqb k k' then Some v else dict_get k d'
  end.

Fixpoint dict_set (k : string) (v : pyval) (d : list (string * pyval))
  : list (string * pyval) :=
  match d with
  | [] => [(k, v)]
  | (k', v') :: d' =>
      if String.eqb k k' then (k', v) :: d' else (k', v') :: dict_set k v d'
  end.

(** [v[key]] for a string key. *)
Definition py_getitem (line : nat) (v : pyval) (key : string) : res pyval :=
  match v with
  | PDict d =>
      match dict_get key d with
      | Some x => Ok x
      | None => Raise (KeyError line key)
      end
  | _ => Raise (TypeError line)
  end.

(** [v[key] = x] for a string key. *)
Definition py_setitem (line : nat) (v : pyval) (key : string) (x : pyval)
  : res pyval :=
  match v with
  | PDict d => Ok (PDict (dict_set key x d))
  | _ => Raise (TypeError line)
  end.

(** *** Equality: [==] and [!=] *)

Definition Z_of_bool (b : bool) : Z := if b then 1 else 0.

(** Sequences are equal item by item, in order. *)
Fixpoint seq_eq (eq : pyval -> pyval -> bool) (xs ys : list pyval) : bool :=
  match xs, ys with
  | [], [] => true
  | x :: xs', y :: ys' => eq x y && seq_eq eq xs' ys'
  | _, _ => false
  end.

(** Every item of [d] is in [d2] with an equal value. *)
Fixpoint items_in (eq : pyval -> pyval -> bool) (d2 d : list (string * pyval))
  : bool :=
  match d with
  | [] => true
  | (k, v) :: d' =>
      match dict_get k d2 with
      | Some w => eq v w
      | None => false
      end && items_in eq d2 d'
  end.

(** [a == b]: [True] and [False] compare as 1 and 0, lists and tuples in
    order, dicts whatever the order of their items. *)
Fixpoint py_eq (a b : pyval) {struct a} : bool :=
  match a, b with
  | PNone, PNone => true
  | PBool x, PBool y => Bool.eqb x y
  | PBool x, PInt y => Z_of_bool x =? y
  | PInt x, PBool y => x =? Z_of_bool y
  | PInt x, PInt y => x =? y
  | PStr x, PStr y => String.eqb x y
  | PList xs, PList ys => seq_eq py_eq xs ys
  | PTuple xs, PTuple ys => seq_eq py_eq xs ys
  | PDict d1, PDict d2 =>
      Nat.eqb (List.length d1) (List.length d2) && items_in py_eq d2 d1
  | _, _ => false
  end.

Definition py_ne (a b : pyval) : bool := negb (py_eq a b).

(** *** [+], [.append], [' '.join], unpacking, iteration *)

Definition py_add (line : nat) (a b : pyval) : res pyval :=
  match a, b with
  | PStr x, PStr y => Ok (PStr (x ++ y))
  | PList x, PList y => Ok (PList (x ++ y))
  | PTuple x, PTuple y => Ok (PTuple (x ++ y))
  | PInt x, PInt y => Ok (PInt (x + y))
  | PInt x, PBool y => Ok (PInt (x + Z_of_bool y))
  | PBool x, PInt y => Ok (PInt (Z_of_bool x + y))
  | PBool x, PBool y => Ok (PInt (Z_of_bool x + Z_of_bool y))
  | _, _ => Raise (TypeError line)
  end.

(** [v.append(x)]: only a list has the method. *)
Definition py_append (line : nat) (v x : pyval) : res pyval :=
  match v with
  | PList l => Ok (PList (l ++ [x]))
  | _ => Raise (AttributeError line)
  end.

Fixpoint chars (s : string) : list string :=
  match s with
  | EmptyString => []
  | String c s' => String c EmptyString :: chars s'
  end.

(** The items of [for x in v]. *)
Definition py_iter (line : nat) (v : pyval) : res (list pyval) :=
  match v with
  | PList l => Ok l
  | PTuple l => Ok l
  | PDict d => Ok (map (fun kv => PStr (fst kv)) d)
  | PStr s => Ok (map PStr (chars s))
  | _ => Raise (TypeError line)
  end.

Fixpoint all_str (l : list pyval) : option (list string) :=
  match l with
  | [] => Some []
  | PStr s :: l' =>
      match all_str l' with
      | Some r => Some (s :: r)
      | None => None
      end
  | _ :: _ => None
  end.

(** [sep.join(v)]. *)
Definition py_join (line : nat) (sep : string) (v : pyval) : res string :=
  match py_iter line v with
  | Ok items =>
      match all_str items with
      | Some ss => Ok (String.concat sep ss)
      | None => Raise (TypeError line)
      end
  | Raise e => Raise e
  | Exit f => Exit f
  end.

(** [a, b = v]. *)
Definition py_unpack2 (line : nat) (v : pyval) : res (pyval * pyval) :=
  match py_iter line v with
  | Ok [a; b] => Ok (a, b)
  | Ok _ => Raise (ValueError line)
  | Raise e => Raise e
  | Exit f => Exit f
  end.

(** [needle in hay] on strings. *)
Fixpoint str_in (needle hay : string) : bool :=
  String.prefix needle hay ||
  match hay with
  | EmptyString => false
  | String _ hay' => str_in needle hay'
  end.

Definition of_opt (o : option string) : pyval :=
  match o with
  | Some s => PStr s
  | None => PNone
  end.

Definition is_none (v : pyval) : bool :=
  match v with
  | PNone => true
  | _ => false
  end.

Definition newline : string := String (ascii_of_nat 10) EmptyString.

(** ["{0}".format(rc)] for an integer. *)
Definition str_of_Z (z : Z) : string := NilZero.string_of_int (Z.to_int z).

(** ** The process around the module *)

(** What the module reaches through its global [module] handle and its two
    imports.  None of it is defined in [helm.py]; the functions below are
    stated for every such host. *)
Record host : Type := {
  (** [module.run_command(args)]: exit code, stdout, stderr. *)
  run_command : pyval -> Z * string * string;
  (** [module.get_bin_path(name, required=True)]: the path, when found. *)
  get_bin_path : string -> option string;
  (** [yaml.safe_load(text)]: the parsed document, when the text parses. *)
  yaml_safe_load : string -> option pyval;
  (** [tempfile.mkstemp(suffix='.yml')]: descriptor and path of the n-th
      temporary file of the run. *)
  mkstemp : nat -> Z * string
}.

(** What a run leaves behind: the commands handed to [run_command], oldest
    first, and the number of temporary files created. *)
Record world : Type := {
  executed : list pyval;
  tempfiles : nat
}.

Definition M (A : Type) : Type := world -> res A * world.

Definition ret {A} (a : A) : M A := fun w => (Ok a, w).

Definition bind {A B} (m : M A) (k : A -> M B) : M B :=
  fun w =>
    match m w with
    | (Ok a, w') => k a w'
    | (Raise e, w') => (Raise e, w')
    | (Exit f, w') => (Exit f, w')
    end.

Definition lift {A} (r : res A) : M A := fun w => (r, w).

Definition raise {A} (e : exn) : M A := lift (Raise e).

Notation "x <- m ;; k" := (bind m (fun x => k))
  (at level 61, m at next level, right associativity).
Notation "' pat <- m ;; k" := (bind m (fun x => match x with pat => k end))
  (at level 61, pat pattern, m at next level, right associativity).

(** [module.fail_json(...)] and [module.exit_json(...)] end the process. *)
Definition fail_json {A} (msg : string) (command : option string) : M A :=
  lift (Exit (FailJson msg command)).

Definition exit_json {A} (changed stdout stderr : pyval) : M A :=
  lift (Exit (ExitJson changed stdout stderr)).

(** The message every failed tool invocation is reported with. *)
Definition failure_msg (rc : Z) (out err : string) : string :=
  "Failure when executing Helm command. Exited " ++ str_of_Z rc ++ "."
  ++ newline ++ "stdout: " ++ out ++ newline ++ "stderr: " ++ err.

Section Helm.

Variable module : host.

Definition run (args : pyval) : M (Z * string * string) :=
  fun w =>
    (Ok (run_command module args),
     {| executed := executed w ++ [args]; tempfiles := tempfiles w |}).

Definition safe_load (line : nat) (text : string) : M pyval :=
  match yaml_safe_load module text with
  | Some v => ret v
  | None => raise (LibraryError line)
  end.

Definition make_temp : M (pyval * string) :=
  fun w =>
    let '(fd, path) := mkstemp module (tempfiles w) in
    (Ok (PInt fd, path),
     {| executed := executed w; tempfiles := S (tempfiles w) |}).

(** [yaml.dump(data, stream)] writes to [stream.write].  With [None] for
    the stream it writes nothing and hands the text back; every other
    value of [pyval], the integer descriptor of [mkstemp] included, has no
    such method, and the call raises. *)
Definition dump (line : nat) (data stream : pyval) : M unit :=
  match stream with
  | PNone => ret tt
  | _ => raise (LibraryError line)
  end.

(** The [module.fail_json(msg=..., command=' '.join(cmd))] call made after
    a nonzero exit; [line] is the line of its [join]. *)
Definition fail_executing {A} (line : nat) (rc : Z) (out err : string)
  (cmd : pyval) : M A :=
  joined <- lift (py_join line " " cmd) ;;
  fail_json (failure_msg rc out err) (Some joined).

(** ** The functions of [helm.py] *)

(** Lines 63-74. *)
Definition get_client_version (command : pyval) : M string :=
  version_command <-
    lift (py_add 64 command
            (PStr " version --client --template '{{ .Client.SemVer }}'")) ;;
  '(rc, out, err) <- run version_command ;;
  if negb (rc =? 0) then fail_executing 71 rc out err version_command
  else ret out.

(** Lines 78-88. *)
Definition get_values (command : pyval) (release_name : string) : M pyval :=
  get_command <-
    lift (res_bind (py_add 79 command (PStr " get values --output=yaml "))
            (fun c => py_add 79 c (PStr release_name))) ;;
  '(rc, out, err) <- run get_command ;;
  if negb (rc =? 0) then fail_executing 85 rc out err get_command
  else safe_load 88 out.

(** Lines 93-96: the loop of [get_release] over the release records. *)
Fixpoint get_release_loop (releases : list pyval) (release_name : string)
  : res pyval :=
  match releases with
  | [] => Ok PNone
  | release :: rest =>
      res_bind (py_getitem 94 release "Name") (fun name =>
      if py_eq name (PStr release_name) then Ok release
      else get_release_loop rest release_name)
  end.

(** Lines 92-96. *)
Definition get_release (status : pyval) (release_name : string) : res pyval :=
  res_bind (py_getitem 93 status "Releases") (fun releases =>
  res_bind (py_iter 93 releases) (fun items =>
  get_release_loop items release_name)).

(** Lines 100-117. *)
Definition status (command : pyval) (release_name : string) : M pyval :=
  list_command <- lift (py_add 101 command (PStr " list --output=yaml")) ;;
  '(rc, out, err) <- run list_command ;;
  if negb (rc =? 0) then fail_executing 107 rc out err list_command
  else
    listing <- safe_load 110 out ;;
    release <- lift (get_release listing release_name) ;;
    if is_none release then ret PNone
    else
      values <- get_values command release_name ;;
      release <- lift (py_setitem 115 release "Values" values) ;;
      ret release.

(** Lines 125-143: the deploy command as [deploy] assembles it. *)
Definition deploy_build (command : pyval)
  (release_namespace release_name : string) (release_value : pyval)
  (chart_name : string) (chart_version : option string)
  (repo_url repo_username repo_password : option string) : M pyval :=
  deploy_command <- lift (py_add 125 command (PStr " upgrade -i ")) ;;
  deploy_command <-
    match chart_version with
    | Some v => lift (py_append 128 deploy_command (PStr (" --version=" ++ v)))
    | None => ret deploy_command
    end ;;
  deploy_command <-
    match repo_url with
    | Some url =>
        dc <- lift (py_append 131 deploy_command (PStr (" --repo=" ++ url))) ;;
        match repo_username, repo_password with
        | Some user, Some pass =>
            dc <- lift (py_append 133 dc (PStr (" --username=" ++ user))) ;;
            lift (py_append 134 dc (PStr (" --password=" ++ pass)))
        | _, _ => ret dc
        end
    | None => ret deploy_command
    end ;;
  deploy_command <-
    (if negb (is_none release_value) then
       '(f, path) <- make_temp ;;
       _ <- dump 138 release_value f ;;
       lift (py_append 139 deploy_command (PStr (" -f=" ++ path)))
     else ret deploy_command) ;;
  deploy_command <-
    lift (py_append 141 deploy_command
            (PStr (" --namespace=" ++ release_namespace ++ " " ++ release_name))) ;;
  deploy_command <-
    lift (py_append 142 deploy_command (PStr (" " ++ release_name))) ;;
  lift (py_append 143 deploy_command (PStr (" " ++ chart_name))).

(** Lines 121-153. *)
Definition deploy (command : pyval)
  (release_namespace release_name : string) (release_value : pyval)
  (chart_name : string) (chart_version : option string)
  (repo_url repo_username repo_password : option string) : M pyval :=
  deploy_command <-
    deploy_build command release_namespace release_name release_value
      chart_name chart_version repo_url repo_username repo_password ;;
  '(rc, out, err) <- run deploy_command ;;
  if negb (rc =? 0) then fail_executing 150 rc out err deploy_command
  else ret (PStr out).

(** Lines 158-163: the delete command as [delete] assembles it. *)
Definition delete_build (command : pyval) (release_name : string)
  (purge : bool) : res pyval :=
  res_bind (py_add 158 command (PStr " delete")) (fun delete_command =>
  res_bind (if purge then py_append 161 delete_command (PStr " --purge")
            else Ok delete_command) (fun delete_command =>
  py_append 163 delete_command (PStr (" " ++ release_name)))).

(** Lines 167-177: what [delete] makes of the tool's answer. *)
Definition delete_result (delete_command : pyval) (release_name : string)
  (rc : Z) (out err : string) : M pyval :=
  if (rc =? 1) && str_in ("Error: release: " ++ release_name ++ " not found") err
  then ret (PTuple [PBool false; PStr out])
  else if negb (rc =? 0) then fail_executing 172 rc out err delete_command
  else ret (PTuple [PBool true; PStr out]).

(** Lines 157-177. *)
Definition delete (command : pyval) (release_name : string) (purge : bool)
  : M pyval :=
  delete_command <- lift (delete_build command release_name purge) ;;
  '(rc, out, err) <- run delete_command ;;
  delete_result delete_command release_name rc out err.

(** ** [main] *)

Inductive state : Type := present | absent.

(** [module.params] as the argument spec of lines 183-196 types it: the
    [str] options without a default may be missing ([None]). *)
Record params : Type := {
  binary_path : option string;
  chart_name : string;
  chart_version : option string;
  release_name : string;
  release_namespace : string;
  release_state : state;
  release_values : pyval;
  repo_url : string;
  repo_username : option string;
  repo_password : option string;
  tiller_host : option string;
  tiller_namespace : string
}.

(** Lines 212-215. *)
Definition main_command (p : params) : M pyval :=
  match binary_path p with
  | Some bin_path => ret (PList [PStr bin_path])
  | None =>
      match get_bin_path module "helm" with
      | Some path => ret (PList [PStr path])
      | None => fail_json "Failed to find required executable helm" None
      end
  end.

(** Lines 218-222. *)
Definition main_dialect (p : params) (helm_version : string) (command : pyval)
  : res pyval :=
  if String.prefix "v2." helm_version then
    match tiller_host p with
    | Some _ =>
        py_append 220 command (PStr (" --tiller-namespace=" ++ tiller_namespace p))
    | None =>
        py_append 222 command (PStr (" --host=" ++ tiller_namespace p))
    end
  else Ok command.

(** The local variables line 245 reads; [None] is a name not yet bound. *)
Record locals : Type := {
  changed : option pyval;
  out : option pyval;
  err : option pyval
}.

(** Line 245. *)
Definition main_exit (l : locals) : M unit :=
  match changed l with
  | None => raise (UnboundLocalError 245 "changed")
  | Some c =>
      match out l with
      | None => raise (UnboundLocalError 245 "out")
      | Some o =>
          match err l with
          | None => raise (UnboundLocalError 245 "err")
          | Some e => exit_json c o e
          end
      end
  end.

(** Lines 228-230 and 237-239: the two identical deploy arms. *)
Definition main_deploy (line : nat) (command : pyval) (p : params) : M unit :=
  r <- deploy command (release_namespace p) (release_name p)
         (release_values p) (chart_name p) (chart_version p)
         (Some (repo_url p)) (repo_username p) (repo_password p) ;;
  '(o, e) <- lift (py_unpack2 line r) ;;
  main_exit {| changed := Some (PBool true); out := Some o; err := Some e |}.

(** Lines 232-234. *)
Definition main_fail_namespace : M unit :=
  fail_json
    "Target Namespace can't be changed on deployed chart ! Need to destroy and recreate it"
    None.

(** Lines 226-245. *)
Definition main_reconcile (command : pyval) (p : params)
  (release_status : pyval) : M unit :=
  match release_state p with
  | present =>
      if is_none release_status then main_deploy 228 command p
      else
        namespace <- lift (py_getitem 231 release_status "Namespace") ;;
        if py_ne (PStr (release_namespace p)) namespace then main_fail_namespace
        else
          values <- lift (py_getitem 235 release_status "Values") ;;
          if py_ne (release_values p) values then
            identity <-
              lift (py_add 236 (PStr (chart_name p ++ "-"))
                      (of_opt (chart_version p))) ;;
            chart <- lift (py_getitem 236 release_status "Chart") ;;
            if py_ne identity chart then main_deploy 237 command p
            else
              main_exit {| changed := Some (PBool false);
                           out := None; err := None |}
          else
            main_exit {| changed := Some (PBool false);
                         out := None; err := None |}
  | absent =>
      r <- delete command (release_name p) true ;;
      main_exit {| changed := Some r; out := None; err := None |}
  end.

(** Lines 180-245. *)
Definition main (p : params) : M unit :=
  command <- main_command p ;;
  helm_version <- get_client_version command ;;
  command <- lift (main_dialect p helm_version command) ;;
  release_status <- status command (release_name p) ;;
  main_reconcile command p release_status.

(** ** The decision inside [main]

    Lines 226-242 choose one of four arms before anything is run.  The
    choice is the guards of [main_reconcile] on their own, and
    [main_arm] is what each arm then does. *)

Inductive action : Type :=
| Deploy (line : nat)
| FailImmutable
| Unchanged
| Delete.

Definition main_decide (p : params) (release_status : pyval) : res action :=
  match release_state p with
  | present =>
      if is_none release_status then Ok (Deploy 228)
      else
        res_bind (py_getitem 231 release_status "Namespace") (fun namespace =>
        if py_ne (PStr (release_namespace p)) namespace then Ok FailImmutable
        else
          res_bind (py_getitem 235 release_status "Values") (fun values =>
          if py_ne (release_values p) values then
            res_bind (py_add 236 (PStr (chart_name p ++ "-"))
                        (of_opt (chart_version p))) (fun identity =>
            res_bind (py_getitem 236 release_status "Chart") (fun chart =>
            if py_ne identity chart then Ok (Deploy 237) else Ok Unchanged))
          else Ok Unchanged))
  | absent => Ok Delete
  end.

Definition main_arm (command : pyval) (p : params) (a : action) : M unit :=
  match a with
  | Deploy line => main_deploy line command p
  | FailImmutable => main_fail_namespace
  | Unchanged =>
      main_exit {| changed := Some (PBool false); out := None; err := None |}
  | Delete =>
      r <- delete command (release_name p) true ;;
      main_exit {| changed := Some r; out := None; err := None |}
  end.

End Helm.

(** ** Keys held once *)

Fixpoint distinct (ks : list string) : bool :=
  match ks with
  | [] => true
  | k :: ks' => negb (existsb (String.eqb k) ks') && distinct ks'
  end.

(** ** A concrete host and concrete runs

    A stand-in tool that knows one release, [app], deployed from
    [mychart-1.0.0] into [default] with [replicas: 1]. *)

Definition app_record : pyval :=
  PDict [("Name", PStr "app"); ("Namespace", PStr "default");
         ("Chart", PStr "mychart-1.0.0")].

Definition app_values : pyval := PDict [("replicas", PInt 1)].

Definition demo_run (args : pyval) : Z * string * string :=
  match args with
  | PStr s =>
      if String.eqb s "helm list --output=yaml"
      then (0, "{Releases: [{Name: app, Namespace: default, Chart: mychart-1.0.0}]}", "")
      else if String.eqb s "helm get values --output=yaml app"
      then (0, "{replicas: 1}", "")
      else (1, "", "Error: unknown command")
  | _ => (1, "", "Error: unknown command")
  end.

Definition demo_load (text : string) : option pyval :=
  if String.eqb text "{Releases: [{Name: app, Namespace: default, Chart: mychart-1.0.0}]}"
  then Some (PDict [("Releases", PList [app_record])])
  else if String.eqb text "{replicas: 1}" then Some app_values
  else None.

Definition demo : host := {|
  run_command := demo_run;
  get_bin_path := fun _ => Some "/usr/local/bin/helm";
  yaml_safe_load := demo_load;
  mkstemp := fun _ => (3, "/tmp/tmpa.yml")
|}.

Definition w0 : world := {| executed := []; tempfiles := 0%nat |}.

(** The release as [status] hands it to [main]. *)
Definition app_observed : pyval :=
  PDict [("Name", PStr "app"); ("Namespace", PStr "default");
         ("Chart", PStr "mychart-1.0.0"); ("Values", app_values)].

(** The desired release of the example scenario. *)
Definition app_spec : params := {|
  binary_path := None;
  chart_name := "mychart";
  chart_version := Some "1.0.0";
  release_name := "app";
  release_namespace := "default";
  release_state := present;
  release_values := app_values;
  repo_url := "https://charts.example.com";
  repo_username := None;
  repo_password := None;
  tiller_host := None;
  tiller_namespace := "default"
|}.

Definition with_state (s : state) (p : params) : params := {|
  binary_path := binary_path p;
  chart_name := chart_name p;
  chart_version := chart_version p;
  release_name := release_name p;
  release_namespace := release_namespace p;
  release_state := s;
  release_values := release_values p;
  repo_url := repo_url p;
  repo_username := repo_username p;
  repo_password := repo_password p;
  tiller_host := tiller_host p;
  tiller_namespace := tiller_namespace p
|}.

Definition with_version (v : option string) (p : params) : params := {|
  binary_path := binary_path p;
  chart_name := chart_name p;
  chart_version := v;
  release_name := release_name p;
  release_namespace := release_namespace p;
  release_state := release_state p;
  release_values := release_values p;
  repo_url := repo_url p;
  repo_username := repo_username p;
  repo_password := repo_password p;
  tiller_host := tiller_host p;
  tiller_namespace := tiller_namespace p
|}.

Definition with_values (v : pyval) (p : params) : params := {|
  binary_path := binary_path p;
  chart_name := chart_name p;
  chart_version := chart_version p;
  release_name := release_name p;
  release_namespace := release_namespace p;
  release_state := release_state p;
  release_values := v;
  repo_url := repo_url p;
  repo_username := repo_username p;
  repo_password := repo_password p;
  tiller_host := tiller_host p;
  tiller_namespace := tiller_namespace p
|}.

Definition with_namespace (ns : string) (p : params) : params := {|
  binary_path := binary_path p;
  chart_name := chart_name p;
  chart_version := chart_version p;
  release_name := release_name p;
  release_namespace := ns;
  release_state := release_state p;
  release_values := release_values p;
  repo_url := repo_url p;
  repo_username := repo_username p;
  repo_password := repo_password p;
  tiller_host := tiller_host p;
  tiller_namespace := tiller_namespace p
|}.

(** The world after [cmds] were run on top of [w]. *)
Definition ran (w : world) (cmds : list pyval) : world :=
  {| executed := executed w ++ cmds; tempfiles := tempfiles w |}.

(** What [' '.join] makes of a command held as one string. *)
Definition spaced (s : string) : string := String.concat " " (chars s).

(** The tiller-connection flag of the legacy dialect. *)
Definition tiller_flag (p : params) : string :=
  match tiller_host p with
  | Some _ => "--tiller-namespace=" ++ tiller_namespace p
  | None => "--host=" ++ tiller_namespace p
  end.

(** No record of [rs] carries the name [target]. *)
Definition no_record (target : string) (rs : list pyval) : Prop :=
  Forall (fun r => exists n, py_getitem 94 r "Name" = Ok n
                             /\ py_eq n (PStr target) = false) rs.

(** ** Further pieces of [main] and a second host *)

(** Lines 228-230 and 237-239 once [deploy] has returned [r], with the
    line 245 that follows. *)
Definition main_deploy_tail (line : nat) (r : pyval) : M unit :=
  '(o, e) <- lift (py_unpack2 line r) ;;
  main_exit {| changed := Some (PBool true); out := Some o; err := Some e |}.

(** Every second character of a string, from the first on. *)
Fixpoint evens (s : string) : string :=
  match s with
  | EmptyString => EmptyString
  | String a EmptyString => String a EmptyString
  | String a (String _ s') => String a (evens s')
  end.

(** A stand-in tool of the legacy dialect that knows no release: it prints
    nothing for the listing, and an empty document parses to [None]. *)
Definition bare_run (args : pyval) : Z * string * string :=
  match args with
  | PStr s =>
      if String.eqb s "helm version --client --template '{{ .Client.SemVer }}'"
      then (0, "v2.14.3", "")
      else if String.eqb s "helm list --output=yaml" then (0, "", "")
      else if String.eqb s "helm get values --output=yaml app"
      then (0, "replicas: [", "")
      else (1, "", "Error: release: app not found")
  | _ => (1, "", "Error: unknown command")
  end.

Definition bare : host := {|
  run_command := bare_run;
  get_bin_path := fun _ => None;
  yaml_safe_load := fun text => if String.eqb text "" then Some PNone else None;
  mkstemp := fun n => (Z.of_nat n + 3, "/tmp/tmpb.yml")
|}.


(** ** Properties *)

Section Properties.

Variable module : host.

(** *** The value model *)

Lemma py_add_str_inv line v s r :
  py_add line v (PStr s) = Ok r -> exists c, v = PStr c /\ r = PStr (c ++ s).
Proof.
  destruct v; simpl; try discriminate.
  intros H; injection H as <-. eauto.
Qed.

Lemma py_add_list_str line l s :
  py_add line (PList l) (PStr s) = Raise (TypeError line).
Proof. reflexivity. Qed.

Lemma py_append_str line c x :
  py_append line (PStr c) x = Raise (AttributeError line).
Proof. reflexivity. Qed.

(** *** The arms of [main] and the decision *)

Lemma main_reconcile_decide command p release_status w :
  main_reconcile module command p release_status w =
  match main_decide p release_status with
  | Ok a => main_arm module command p a w
  | Raise e => (Raise e, w)
  | Exit f => (Exit f, w)
  end.
Proof.
  unfold main_reconcile, main_decide.
  destruct (release_state p); [|reflexivity].
  destruct (is_none release_status); [reflexivity|].
  unfold bind, lift, res_bind.
  destruct (py_getitem 231 release_status "Namespace") as [ns| |];
    try reflexivity.
  destruct (py_ne (PStr (release_namespace p)) ns); [reflexivity|].
  destruct (py_getitem 235 release_status "Values") as [vals| |];
    try reflexivity.
  destruct (py_ne (release_values p) vals); [|reflexivity].
  destruct (py_add 236 (PStr (chart_name p ++ "-")) (of_opt (chart_version p)))
    as [ident| |]; try reflexivity.
  destruct (py_getitem 236 release_status "Chart") as [chart| |];
    try reflexivity.
  destruct (py_ne ident chart); reflexivity.
Qed.

(** Line 245 on the arms that never bind [out]. *)
Lemma main_exit_out_unbound c e w :
  main_exit {| changed := Some c; out := None; err := e |} w =
  (Raise (UnboundLocalError 245 "out"), w).
Proof. reflexivity. Qed.

(** *** Commands that are never assembled *)

Lemma delete_build_raises command name purge :
  exists e, delete_build command name purge = Raise e.
Proof.
  unfold delete_build.
  destruct (py_add 158 command (PStr " delete")) as [dc| |] eqn:E; simpl;
    eauto.
  - apply py_add_str_inv in E as (c & -> & ->).
    destruct purge; simpl; eauto.
  - destruct command; discriminate.
Qed.

Lemma delete_raises command name purge w :
  exists e, delete module command name purge w = (Raise e, w).
Proof.
  destruct (delete_build_raises command name purge) as [e He].
  exists e. unfold delete, bind, lift. now rewrite He.
Qed.

Lemma deploy_build_raises command ns name value chart version url user pass w :
  exists e w', deploy_build module command ns name value chart version url
                 user pass w = (Raise e, w')
               /\ executed w' = executed w.
Proof.
  unfold deploy_build, bind, lift.
  destruct (py_add 125 command (PStr " upgrade -i ")) as [dc| |] eqn:E.
  2: eauto.
  2: destruct command; discriminate.
  apply py_add_str_inv in E as (c & -> & ->).
  destruct version as [v|]; simpl; [eauto|].
  destruct url as [u|]; simpl; [eauto|].
  destruct (is_none value); simpl; [eauto|].
  unfold make_temp. destruct (mkstemp module (tempfiles w)) as [fd path].
  simpl. eauto.
Qed.

Lemma deploy_raises command ns name value chart version url user pass w :
  exists e w', deploy module command ns name value chart version url
                 user pass w = (Raise e, w')
               /\ executed w' = executed w.
Proof.
  destruct (deploy_build_raises command ns name value chart version url
              user pass w) as (e & w' & He & Hw).
  exists e, w'. split; [|exact Hw].
  unfold deploy, bind. now rewrite He.
Qed.


(** For a release observed in the desired namespace, lines 235-241 on
    their own. *)
Lemma decide_same_namespace p d ns vals :
  release_state p = present ->
  dict_get "Namespace" d = Some ns ->
  py_ne (PStr (release_namespace p)) ns = false ->
  dict_get "Values" d = Some vals ->
  main_decide p (PDict d) =
  if py_ne (release_values p) vals then
    res_bind (py_add 236 (PStr (chart_name p ++ "-")) (of_opt (chart_version p)))
      (fun identity =>
         res_bind (py_getitem 236 (PDict d) "Chart") (fun chart =>
         if py_ne identity chart then Ok (Deploy 237) else Ok Unchanged))
  else Ok Unchanged.
Proof.
  intros Hs Hns Hne Hv. unfold main_decide. rewrite Hs.
  cbn [is_none py_getitem]. rewrite Hns. cbn [res_bind]. rewrite Hne.
  rewrite Hv. reflexivity.
Qed.

(** With a chart version given, the upgrade arm is taken exactly when the
    values and the chart identity both differ. *)
Lemma conjunctive_trigger p d ns vals chart version :
  release_state p = present ->
  chart_version p = Some version ->
  dict_get "Namespace" d = Some ns ->
  py_ne (PStr (release_namespace p)) ns = false ->
  dict_get "Values" d = Some vals ->
  dict_get "Chart" d = Some chart ->
  main_decide p (PDict d) =
  Ok (if py_ne (release_values p) vals
         && py_ne (PStr ((chart_name p ++ "-") ++ version)) chart
      then Deploy 237 else Unchanged).
Proof.
  intros Hs Hver Hns Hne Hv Hc.
  rewrite (decide_same_namespace p d ns vals Hs Hns Hne Hv).
  rewrite Hver. cbn [of_opt py_add res_bind py_getitem]. rewrite Hc.
  cbn [res_bind].
  destruct (py_ne (release_values p) vals); [|reflexivity].
  cbn [andb]. destruct (py_ne _ chart); reflexivity.
Qed.

(** The no-change arm runs nothing. *)
Lemma unchanged_runs_nothing command p release_status w :
  main_decide p release_status = Ok Unchanged ->
  main_reconcile module command p release_status w =
  (Raise (UnboundLocalError 245 "out"), w).
Proof.
  intros H. rewrite main_reconcile_decide, H. reflexivity.
Qed.

Lemma py_getitem_no_exit line v key f : py_getitem line v key <> Exit f.
Proof.
  destruct v; try discriminate. simpl.
  destruct (dict_get key d); discriminate.
Qed.

Lemma py_add_no_exit line a b f : py_add line a b <> Exit f.
Proof. destruct a, b; discriminate. Qed.

(** The guards never leave the process themselves. *)
Lemma main_decide_no_exit p release_status f :
  main_decide p release_status <> Exit f.
Proof.
  unfold main_decide.
  destruct (release_state p); [|discriminate].
  destruct (is_none release_status); [discriminate|].
  destruct (py_getitem 231 release_status "Namespace") as [ns| |] eqn:E1;
    cbn [res_bind]; [|discriminate|now apply py_getitem_no_exit in E1].
  destruct (py_ne (PStr (release_namespace p)) ns); [discriminate|].
  destruct (py_getitem 235 release_status "Values") as [vals| |] eqn:E2;
    cbn [res_bind]; [|discriminate|now apply py_getitem_no_exit in E2].
  destruct (py_ne (release_values p) vals); [|discriminate].
  destruct (py_add 236 (PStr (chart_name p ++ "-")) (of_opt (chart_version p)))
    as [ident| |] eqn:E3;
    cbn [res_bind]; [|discriminate|now apply py_add_no_exit in E3].
  destruct (py_getitem 236 release_status "Chart") as [chart| |] eqn:E4;
    cbn [res_bind]; [|discriminate|now apply py_getitem_no_exit in E4].
  destruct (py_ne ident chart); discriminate.
Qed.

(** No arm of lines 226-245 reaches [exit_json]. *)
Lemma main_reconcile_never_reports command p release_status w c o e w' :
  main_reconcile module command p release_status w
  <> (Exit (ExitJson c o e), w').
Proof.
  rewrite main_reconcile_decide.
  destruct (main_decide p release_status) as [[line| | |]| |] eqn:E.
  - cbn [main_arm]. unfold main_deploy, bind.
    destruct (deploy_raises command (release_namespace p) (release_name p)
                (release_values p) (chart_name p) (chart_version p)
                (Some (repo_url p)) (repo_username p) (repo_password p) w)
      as (x & w1 & -> & _).
    discriminate.
  - discriminate.
  - discriminate.
  - cbn [main_arm]. unfold bind.
    destruct (delete_raises command (release_name p) true w) as (x & ->).
    discriminate.
  - discriminate.
  - now apply main_decide_no_exit in E.
Qed.

Lemma main_command_list p w :
  main_command module p w =
  match binary_path p, get_bin_path module "helm" with
  | Some path, _ => (Ok (PList [PStr path]), w)
  | None, Some path => (Ok (PList [PStr path]), w)
  | None, None =>
      (Exit (FailJson "Failed to find required executable helm" None), w)
  end.
Proof.
  unfold main_command.
  destruct (binary_path p); [reflexivity|].
  destruct (get_bin_path module "helm"); reflexivity.
Qed.

(** Every run of [main] stops at line 64, unless no helm binary is found
    at line 215. *)
Lemma main_stops_at_probe p w :
  main module p w =
  match binary_path p, get_bin_path module "helm" with
  | None, None =>
      (Exit (FailJson "Failed to find required executable helm" None), w)
  | _, _ => (Raise (TypeError 64), w)
  end.
Proof.
  unfold main, bind. rewrite main_command_list.
  destruct (binary_path p); [reflexivity|].
  destruct (get_bin_path module "helm"); reflexivity.
Qed.


Lemma all_str_map l : all_str (map PStr l) = Some l.
Proof.
  induction l as [|x l IH]; simpl; [reflexivity|]. now rewrite IH.
Qed.

Lemma py_join_str line c : py_join line " " (PStr c) = Ok (spaced c).
Proof.
  unfold py_join. cbn [py_iter]. now rewrite all_str_map.
Qed.

Lemma fail_executing_str {A} line rc out err c w :
  @fail_executing A line rc out err (PStr c) w =
  (Exit (FailJson (failure_msg rc out err) (Some (spaced c))), w).
Proof.
  unfold fail_executing, bind, lift. now rewrite py_join_str.
Qed.

(** Lines 167-177 on a command that was run. *)
Lemma delete_result_spec c name rc out err w :
  (rc = 1 ->
   str_in ("Error: release: " ++ name ++ " not found") err = true ->
   delete_result (PStr c) name rc out err w
   = (Ok (PTuple [PBool false; PStr out]), w))
  /\ (rc = 0 ->
      delete_result (PStr c) name rc out err w
      = (Ok (PTuple [PBool true; PStr out]), w))
  /\ (rc <> 0 ->
      (rc =? 1) && str_in ("Error: release: " ++ name ++ " not found") err
      = false ->
      delete_result (PStr c) name rc out err w
      = (Exit (FailJson (failure_msg rc out err) (Some (spaced c))), w)).
Proof.
  unfold delete_result. repeat split.
  - intros -> ->. reflexivity.
  - intros ->. reflexivity.
  - intros Hrc ->. apply Z.eqb_neq in Hrc. rewrite Hrc. cbn [negb].
    apply fail_executing_str.
Qed.

Lemma get_release_loop_absent target rs :
  no_record target rs -> get_release_loop rs target = Ok PNone.
Proof.
  induction 1 as [|r rs (n & Hn & Hne) _ IH]; simpl; [reflexivity|].
  rewrite Hn. cbn [res_bind]. now rewrite Hne.
Qed.

Lemma get_release_loop_found target pre dr post n :
  no_record target pre ->
  dict_get "Name" dr = Some n ->
  py_eq n (PStr target) = true ->
  get_release_loop (pre ++ PDict dr :: post) target = Ok (PDict dr).
Proof.
  intros Hpre Hn Heq.
  induction Hpre as [|r rs (m & Hm & Hne) _ IH]; simpl.
  - rewrite Hn. cbn [res_bind]. now rewrite Heq.
  - rewrite Hm. cbn [res_bind]. now rewrite Hne.
Qed.

(** *** The reconciliation path *)

(** C2 (namespace immutability).  In a reconciliation with state
    [present] whose observed release exists and carries a namespace that
    differs from the desired one, the decision is the immutable-field
    failure: the run ends in [fail_json] with the destroy-and-recreate
    message, and the world is left as it was, so that no deploy or delete
    command was built or run and no temporary file was made. *)
Theorem namespace_is_immutable command p d ns w :
  release_state p = present ->
  dict_get "Namespace" d = Some ns ->
  py_ne (PStr (release_namespace p)) ns = true ->
  main_decide p (PDict d) = Ok FailImmutable
  /\ main_reconcile module command p (PDict d) w =
     (Exit (FailJson
              "Target Namespace can't be changed on deployed chart ! Need to destroy and recreate it"
              None), w).
Proof.
  intros Hs Hns Hne.
  assert (Hd : main_decide p (PDict d) = Ok FailImmutable).
  { unfold main_decide. rewrite Hs. cbn [is_none py_getitem].
    rewrite Hns. cbn [res_bind]. now rewrite Hne. }
  split; [exact Hd|].
  rewrite main_reconcile_decide, Hd. reflexivity.
Qed.

(** Lines 218-222 on a base command built as a list.  For every
    version string they append one token exactly
    when the version starts with [v2.]: a blank followed by
    [--tiller-namespace=<tillerNamespace>] if a tiller host was supplied
    and by [--host=<tillerNamespace>] otherwise.  It becomes the last
    item of the base command, ahead of whatever a subcommand adds.  For
    any other version string the base command is returned as it was. *)
Lemma dialect_selection p helm_version l :
  main_dialect p helm_version (PList l) =
  Ok (PList (if String.prefix "v2." helm_version
             then l ++ [PStr (" " ++ tiller_flag p)]
             else l)).
Proof.
  unfold main_dialect, tiller_flag.
  destruct (String.prefix "v2." helm_version); [|reflexivity].
  destruct (tiller_host p); reflexivity.
Qed.

(** C9 (list and string mixed).  [main] builds the base command as a
    one-item list (or stops because no helm binary is found).  On a list
    command every function raises [TypeError] at its first concatenation:
    [get_client_version] at line 64, [get_values] at 79, [status] at 101,
    [deploy] at 125 and [delete] at 158, each before anything is run.
    [deploy] and [delete] raise on every command value whatever its type,
    a string included, since they call [.append] on the result of the
    concatenation.  So every run of [main] stops at the version probe of
    line 64, or at line 215 for want of a binary: it runs no command and
    never reaches [exit_json]. *)
Theorem commands_never_assembled :
  (forall p w,
      (exists path, main_command module p w = (Ok (PList [PStr path]), w))
      \/ (exists msg, main_command module p w = (Exit (FailJson msg None), w)))
  /\ (forall l w,
         get_client_version module (PList l) w = (Raise (TypeError 64), w))
  /\ (forall l name w,
         get_values module (PList l) name w = (Raise (TypeError 79), w))
  /\ (forall l name w,
         status module (PList l) name w = (Raise (TypeError 101), w))
  /\ (forall l ns name value chart version url user pass w,
         deploy module (PList l) ns name value chart version url user pass w
         = (Raise (TypeError 125), w))
  /\ (forall l name purge w,
         delete module (PList l) name purge w = (Raise (TypeError 158), w))
  /\ (forall command ns name value chart version url user pass w,
         exists e w',
           deploy module command ns name value chart version url user pass w
           = (Raise e, w')
           /\ executed w' = executed w)
  /\ (forall command name purge w,
         exists e, delete module command name purge w = (Raise e, w))
  /\ (forall p w,
         (main module p w = (Raise (TypeError 64), w)
          \/ exists msg, main module p w = (Exit (FailJson msg None), w))
         /\ executed (snd (main module p w)) = executed w
         /\ forall c o e, fst (main module p w) <> Exit (ExitJson c o e)).
Proof.
  repeat match goal with |- _ /\ _ => split end.
  - intros p w. rewrite main_command_list.
    destruct (binary_path p); [left; eauto|].
    destruct (get_bin_path module "helm"); [left; eauto|right; eauto].
  - reflexivity.
  - reflexivity.
  - reflexivity.
  - reflexivity.
  - reflexivity.
  - intros. apply deploy_raises.
  - intros. apply delete_raises.
  - intros p w. rewrite main_stops_at_probe.
    destruct (binary_path p); [|destruct (get_bin_path module "helm")];
      (split; [eauto|split; [reflexivity|discriminate]]).
Qed.

(** C10 (omitted chart version), as the code has it.  For a release
    observed in the desired namespace, line 236 is evaluated only when the
    desired values differ from the observed ones, [and] being lazy.  With
    [chart_version] omitted the decision then raises [TypeError] at line
    236, a string being concatenated with [None]; with equal values it
    completes as [Unchanged].  With a chart version given and a chart
    identity observed the decision always completes. *)
Theorem version_omitted_decision p d ns vals :
  release_state p = present ->
  dict_get "Namespace" d = Some ns ->
  py_ne (PStr (release_namespace p)) ns = false ->
  dict_get "Values" d = Some vals ->
  (chart_version p = None ->
   main_decide p (PDict d) =
   if py_ne (release_values p) vals then Raise (TypeError 236)
   else Ok Unchanged)
  /\ (forall version chart,
         chart_version p = Some version ->
         dict_get "Chart" d = Some chart ->
         exists a, main_decide p (PDict d) = Ok a).
Proof.
  intros Hs Hns Hne Hv. split.
  - intros Hver. rewrite (decide_same_namespace p d ns vals Hs Hns Hne Hv).
    rewrite Hver. reflexivity.
  - intros version chart Hver Hc.
    rewrite (conjunctive_trigger p d ns vals chart version Hs Hver Hns Hne Hv Hc).
    eauto.
Qed.


(** [status] on a base command held as a string and a listing that is
    a mapping with a sequence of releases: a nonzero exit of the list command ends the
    run in [fail_json]; when the parsed listing has no record whose name
    equals the target, [status] returns [None] having run the list command
    only; when it has one, the get-values command is run for it, a nonzero
    exit of that command ends the run in [fail_json] as well, and
    otherwise the first matching record is returned with the parsed
    values stored under [Values]. *)
Lemma status_contract (c name : string) (w : world) rc out err :
  let list_command := PStr (c ++ " list --output=yaml") in
  let get_command := PStr ((c ++ " get values --output=yaml ") ++ name) in
  run_command module list_command = (rc, out, err) ->
  (rc <> 0 ->
   status module (PStr c) name w =
   (Exit (FailJson (failure_msg rc out err)
            (Some (spaced (c ++ " list --output=yaml")))),
    ran w [list_command]))
  /\ (rc = 0 ->
      forall d rs,
        yaml_safe_load module out = Some (PDict d) ->
        dict_get "Releases" d = Some (PList rs) ->
        (no_record name rs ->
         status module (PStr c) name w = (Ok PNone, ran w [list_command]))
        /\ (forall pre dr post n,
               rs = (pre ++ PDict dr :: post)%list ->
               no_record name pre ->
               dict_get "Name" dr = Some n ->
               py_eq n (PStr name) = true ->
               forall rc2 out2 err2,
                 run_command module get_command = (rc2, out2, err2) ->
                 (rc2 <> 0 ->
                  status module (PStr c) name w =
                  (Exit (FailJson (failure_msg rc2 out2 err2)
                           (Some (spaced ((c ++ " get values --output=yaml ")
                                          ++ name)))),
                   ran w [list_command; get_command]))
                 /\ (rc2 = 0 ->
                     forall values,
                       yaml_safe_load module out2 = Some values ->
                       status module (PStr c) name w =
                       (Ok (PDict (dict_set "Values" values dr)),
                        ran w [list_command; get_command])))).
Proof.
  intros list_command get_command Hrun. split.
  - intros Hrc. apply Z.eqb_neq in Hrc.
    unfold status, bind, lift, run. cbn [py_add].
    fold list_command. rewrite Hrun, Hrc. cbn [negb].
    unfold list_command. rewrite fail_executing_str. reflexivity.
  - intros -> d rs Hload Hrel.
    assert (Hstart :
               status module (PStr c) name w =
               match get_release_loop rs name with
               | Ok release =>
                   if is_none release then (Ok PNone, ran w [list_command])
                   else
                     bind (get_values module (PStr c) name)
                       (fun values =>
                          bind (lift (py_setitem 115 release "Values" values))
                            (fun release => ret release))
                       (ran w [list_command])
               | Raise e => (Raise e, ran w [list_command])
               | Exit f => (Exit f, ran w [list_command])
               end).
    { unfold status at 1, bind at 1 2 3 4, lift at 1 2, run.
      cbn [py_add]. fold list_command. rewrite Hrun. cbn [Z.eqb negb].
      unfold safe_load. rewrite Hload. unfold ret at 1.
      unfold get_release. cbn [py_getitem]. rewrite Hrel.
      cbn [res_bind py_iter].
      destruct (get_release_loop rs name) as [release| |]; try reflexivity.
      destruct (is_none release); reflexivity. }
    split.
    + intros Hnone. rewrite Hstart, (get_release_loop_absent name rs Hnone).
      reflexivity.
    + intros pre dr post n -> Hpre Hn Heq rc2 out2 err2 Hrun2.
      rewrite Hstart,
        (get_release_loop_found name pre dr post n Hpre Hn Heq).
      cbn [is_none].
      unfold get_values, bind, lift, run, ran. cbn [py_add res_bind executed tempfiles].
      fold get_command. rewrite Hrun2. split.
      * intros Hrc2. apply Z.eqb_neq in Hrc2. rewrite Hrc2. cbn [negb].
        unfold get_command. rewrite fail_executing_str.
        now rewrite <- app_assoc.
      * intros -> values Hvals. cbn [Z.eqb negb].
        unfold safe_load. rewrite Hvals. unfold ret.
        cbn [py_setitem]. now rewrite <- app_assoc.
Qed.

End Properties.

(** ** Concrete runs *)

(** C1 (conjunctive upgrade trigger).  The spec of the example without
    its chart version and with [replicas: 2], against the release observed
    in the same namespace with [replicas: 1]: the values differ, line 236
    concatenates a string with [None], and the run raises [TypeError]
    there instead of deciding between Deploy and Unchanged. *)
Theorem upgrade_without_version_raises :
  let p := with_version None
             (with_values (PDict [("replicas", PInt 2)]) app_spec) in
  release_state p = present
  /\ py_getitem 231 app_observed "Namespace" = Ok (PStr (release_namespace p))
  /\ py_ne (release_values p) app_values = true
  /\ main_decide p app_observed = Raise (TypeError 236)
  /\ main_reconcile demo (PList [PStr "/usr/local/bin/helm"]) p app_observed w0
     = (Raise (TypeError 236), w0).
Proof. repeat split. Qed.

(** C3 (idempotent delete).  With state [absent], the run raises
    [TypeError] at line 158, inside [delete], before any command is run;
    a base command held as a string raises [AttributeError] at line 161
    instead.  Had [delete] returned its pair, line 245 would still raise
    on the unbound [out]. *)
Theorem absent_run_raises :
  main_reconcile demo (PList [PStr "/usr/local/bin/helm"])
    (with_state absent app_spec) PNone w0
  = (Raise (TypeError 158), w0)
  /\ delete demo (PStr "/usr/local/bin/helm") "app" true w0
     = (Raise (AttributeError 161), w0)
  /\ main_exit {| changed := Some (PTuple [PBool false; PStr ""]);
                  out := None; err := None |} w0
     = (Raise (UnboundLocalError 245 "out"), w0).
Proof. repeat split. Qed.

(** C5 (deploy command shape).  [deploy] on the example spec raises
    [TypeError] at line 125 for the list command [main] passes, and
    [AttributeError] at line 128 for a command held as a string: no
    deploy command is built.  With an empty values mapping, no version
    and no repository, line 137 still makes a temporary file, and line
    138 raises on the integer descriptor it hands to [yaml.dump]: line
    139 and its [-f=] are not reached. *)
Theorem deploy_run_raises :
  deploy demo (PList [PStr "/usr/local/bin/helm"]) "default" "app" app_values
    "mychart" (Some "1.0.0") (Some "https://charts.example.com") None None w0
  = (Raise (TypeError 125), w0)
  /\ deploy demo (PStr "/usr/local/bin/helm") "default" "app" app_values
       "mychart" (Some "1.0.0") (Some "https://charts.example.com") None None w0
     = (Raise (AttributeError 128), w0)
  /\ deploy demo (PStr "/usr/local/bin/helm") "default" "app" (PDict [])
       "mychart" None None None None w0
     = (Raise (LibraryError 138), {| executed := []; tempfiles := 1 |}).
Proof. repeat split. Qed.

(** C4 (dialect selection).  For the version [v2.4.1] and the base
    command [main] builds, lines 218-222 append one item, and the item
    is not [--host=default] or [--tiller-namespace=default]: it starts
    with the blank that joins pieces of a command line held as one
    string, which in a list is part of the argument.  A run of [main]
    does not get that far: it raises at line 64. *)
Theorem legacy_flag_has_blank :
  let with_host := {|
    binary_path := None; chart_name := "mychart";
    chart_version := Some "1.0.0"; release_name := "app";
    release_namespace := "default"; release_state := present;
    release_values := app_values;
    repo_url := "https://charts.example.com";
    repo_username := None; repo_password := None;
    tiller_host := Some "tiller:44134"; tiller_namespace := "default" |} in
  main_dialect app_spec "v2.4.1" (PList [PStr "/usr/local/bin/helm"])
  = Ok (PList [PStr "/usr/local/bin/helm"; PStr " --host=default"])
  /\ tiller_flag app_spec = "--host=default"
  /\ PStr " --host=default" <> PStr (tiller_flag app_spec)
  /\ main_dialect with_host "v2.4.1" (PList [PStr "/usr/local/bin/helm"])
     = Ok (PList [PStr "/usr/local/bin/helm";
                  PStr " --tiller-namespace=default"])
  /\ tiller_flag with_host = "--tiller-namespace=default"
  /\ PStr " --tiller-namespace=default" <> PStr (tiller_flag with_host)
  /\ main demo app_spec w0 = (Raise (TypeError 64), w0).
Proof. repeat split; discriminate. Qed.

(** C6 (status query contract).  [status] on the list command [main]
    passes raises [TypeError] at line 101 before the list command is
    run, so no exit code is ever looked at.  On a command held as a
    string, with a tool that prints nothing for its listing, the empty
    document parses to [None] and [status] raises [TypeError] at line 93
    instead of returning [None]. *)
Theorem status_run_raises :
  status demo (PList [PStr "/usr/local/bin/helm"]) "app" w0
  = (Raise (TypeError 101), w0)
  /\ main demo app_spec w0 = (Raise (TypeError 64), w0)
  /\ run_command bare (PStr "helm list --output=yaml") = (0, "", "")
  /\ yaml_safe_load bare "" = Some PNone
  /\ status bare (PStr "helm") "app" w0
     = (Raise (TypeError 93), ran w0 [PStr "helm list --output=yaml"]).
Proof. repeat split. Qed.

(** C7 (idempotence).  The example scenario.  First run, nothing
    observed: the first install is decided and [deploy] raises
    [TypeError] at line 125, so nothing is applied.  Second run, the
    release observed as the spec describes it: [Unchanged] is decided,
    and line 245 raises [UnboundLocalError] for [out] instead of
    reporting [changed = False].  With state [absent] the run raises
    inside [delete], at line 158, whether the release is there or not. *)
Theorem example_scenario_raises :
  main_decide app_spec PNone = Ok (Deploy 228)
  /\ main_reconcile demo (PList [PStr "/usr/local/bin/helm"]) app_spec PNone w0
     = (Raise (TypeError 125), w0)
  /\ main_decide app_spec app_observed = Ok Unchanged
  /\ main_reconcile demo (PList [PStr "/usr/local/bin/helm"]) app_spec
       app_observed w0
     = (Raise (UnboundLocalError 245 "out"), w0)
  /\ main_reconcile demo (PList [PStr "/usr/local/bin/helm"])
       (with_state absent app_spec) app_observed w0
     = (Raise (TypeError 158), w0)
  /\ main_reconcile demo (PList [PStr "/usr/local/bin/helm"])
       (with_state absent app_spec) PNone w0
     = (Raise (TypeError 158), w0).
Proof. repeat split. Qed.

(** C8 (result surface).  The example spec against the release it
    describes: the decision is [Unchanged], and the run raises
    [UnboundLocalError] for [out] at line 245 instead of returning
    [changed], [stdout] and [stderr]. *)
Theorem unchanged_run_raises :
  main_decide app_spec app_observed = Ok Unchanged
  /\ main_reconcile demo (PList [PStr "/usr/local/bin/helm"]) app_spec
       app_observed w0
     = (Raise (UnboundLocalError 245 "out"), w0).
Proof. repeat split. Qed.

(** The legacy and the modern dialect of the two version strings
    [v2.4.1] and [v3.0.0]. *)
Lemma dialect_examples :
  main_dialect app_spec "v2.4.1" (PList [PStr "/usr/local/bin/helm"])
  = Ok (PList [PStr "/usr/local/bin/helm"; PStr " --host=default"])
  /\ main_dialect app_spec "v3.0.0" (PList [PStr "/usr/local/bin/helm"])
     = Ok (PList [PStr "/usr/local/bin/helm"]).
Proof. split; reflexivity. Qed.

(** Lines 167-177 on exit code 1 with the not-found message. *)
Lemma delete_result_not_found :
  delete_result (PStr "helm delete --purge app") "app" 1 ""
    "Error: release: app not found" w0
  = (Ok (PTuple [PBool false; PStr ""]), w0).
Proof. reflexivity. Qed.

(** With the chart version omitted and equal values, a release observed
    in the desired namespace does not stop the decision. *)
Lemma version_omitted_counterexample :
  ~ (forall p d ns,
        release_state p = present ->
        chart_version p = None ->
        dict_get "Namespace" d = Some ns ->
        py_ne (PStr (release_namespace p)) ns = false ->
        exists e, main_decide p (PDict d) = Raise e).
Proof.
  intros H.
  destruct (H (with_version None app_spec)
              [("Name", PStr "app"); ("Namespace", PStr "default");
               ("Chart", PStr "mychart-1.0.0"); ("Values", app_values)]
              (PStr "default") eq_refl eq_refl eq_refl eq_refl) as [e He].
  discriminate He.
Qed.

Lemma namespace_is_immutable_witness :
  release_state (with_namespace "prod" app_spec) = present
  /\ main_decide (with_namespace "prod" app_spec) app_observed
     = Ok FailImmutable
  /\ main_reconcile demo (PList [PStr "/usr/local/bin/helm"])
       (with_namespace "prod" app_spec) app_observed w0
     = (Exit (FailJson
                "Target Namespace can't be changed on deployed chart ! Need to destroy and recreate it"
                None), w0).
Proof.
  split; [reflexivity|].
  apply (namespace_is_immutable demo (PList [PStr "/usr/local/bin/helm"])
           (with_namespace "prod" app_spec) _ (PStr "default") w0);
    reflexivity.
Defined.

Lemma status_contract_witness :
  status demo (PStr "helm") "app" w0 =
  (Ok app_observed,
   ran w0 [PStr "helm list --output=yaml";
           PStr "helm get values --output=yaml app"]).
Proof.
  destruct (status_contract demo "helm" "app" w0 0
              "{Releases: [{Name: app, Namespace: default, Chart: mychart-1.0.0}]}"
              "" eq_refl) as [_ Hzero].
  destruct (Hzero eq_refl [("Releases", PList [app_record])] [app_record]
              eq_refl eq_refl) as [_ Hfound].
  destruct (Hfound [] [("Name", PStr "app"); ("Namespace", PStr "default");
                       ("Chart", PStr "mychart-1.0.0")] [] (PStr "app")
              eq_refl (Forall_nil _) eq_refl eq_refl
              0 "{replicas: 1}" "" eq_refl) as [_ Hvalues].
  exact (Hvalues eq_refl app_values eq_refl).
Defined.

Lemma version_omitted_decision_witness :
  main_decide
    (with_version None (with_values (PDict [("replicas", PInt 2)]) app_spec))
    app_observed
  = Raise (TypeError 236)
  /\ main_decide (with_version None app_spec) app_observed = Ok Unchanged.
Proof.
  split.
  - apply (version_omitted_decision
             (with_version None
                (with_values (PDict [("replicas", PInt 2)]) app_spec))
             [("Name", PStr "app"); ("Namespace", PStr "default");
              ("Chart", PStr "mychart-1.0.0"); ("Values", app_values)]
             (PStr "default") app_values eq_refl eq_refl eq_refl eq_refl).
    reflexivity.
  - apply (version_omitted_decision (with_version None app_spec)
             [("Name", PStr "app"); ("Namespace", PStr "default");
              ("Chart", PStr "mychart-1.0.0"); ("Values", app_values)]
             (PStr "default") app_values eq_refl eq_refl eq_refl eq_refl).
    reflexivity.
Defined.

(** ** More of the module's behaviour *)

Section Behaviour.

Variable module : host.

(** *** [get_release] *)

Lemma get_release_loop_none rs name :
  get_release_loop rs name = Ok PNone -> no_record name rs.
Proof.
  induction rs as [|r rs IH]; simpl; intros H; [constructor|].
  destruct (py_getitem 94 r "Name") as [n| |] eqn:En;
    cbn [res_bind] in H; try discriminate.
  destruct (py_eq n (PStr name)) eqn:Eq.
  - injection H as ->. discriminate En.
  - constructor; [eauto|exact (IH H)].
Qed.

Lemma get_release_loop_some rs name r :
  get_release_loop rs name = Ok r ->
  r <> PNone ->
  exists pre post dr n,
    r = PDict dr /\ rs = (pre ++ r :: post)%list /\ no_record name pre
    /\ dict_get "Name" dr = Some n /\ py_eq n (PStr name) = true.
Proof.
  induction rs as [|x rs IH]; simpl; intros H Hr.
  - injection H as <-. now destruct Hr.
  - destruct (py_getitem 94 x "Name") as [n| |] eqn:En;
      cbn [res_bind] in H; try discriminate.
    destruct (py_eq n (PStr name)) eqn:Eq.
    + injection H as <-.
      destruct x as [| | | | | |dr]; try discriminate.
      simpl in En. destruct (dict_get "Name" dr) as [m|] eqn:Em;
        try discriminate.
      injection En as ->.
      exists [], rs, dr, n. repeat split; auto. constructor.
    + destruct (IH H Hr) as (pre & post & dr & m & -> & -> & Hpre & Hm & Heq).
      exists (x :: pre), post, dr, m. repeat split; auto.
      constructor; [eauto|exact Hpre].
Qed.

(** X1.  [get_release] answers [None] exactly when every record of the listing
    has a name and none of the names equals the target. *)
Theorem get_release_none_iff d rs name :
  dict_get "Releases" d = Some (PList rs) ->
  (get_release (PDict d) name = Ok PNone <-> no_record name rs).
Proof.
  intros Hd. unfold get_release. cbn [py_getitem]. rewrite Hd.
  cbn [res_bind py_iter]. split.
  - apply get_release_loop_none.
  - apply get_release_loop_absent.
Qed.

(** X2.  [get_release] answers a record exactly when that record is a mapping
    of the listing whose name equals the target and every record before
    it has another name: of several records with the target's name, the
    first is returned. *)
Theorem get_release_first_match d rs name dr :
  dict_get "Releases" d = Some (PList rs) ->
  (get_release (PDict d) name = Ok (PDict dr) <->
   exists pre post n,
     rs = (pre ++ PDict dr :: post)%list /\ no_record name pre
     /\ dict_get "Name" dr = Some n /\ py_eq n (PStr name) = true).
Proof.
  intros Hd. unfold get_release. cbn [py_getitem]. rewrite Hd.
  cbn [res_bind py_iter]. split.
  - intros H.
    destruct (get_release_loop_some rs name (PDict dr) H)
      as (pre & post & dr' & n & E & -> & Hpre & Hn & Heq); [discriminate|].
    injection E as <-. exists pre, post, n. auto.
  - intros (pre & post & n & -> & Hpre & Hn & Heq).
    now apply (get_release_loop_found name pre dr post n).
Qed.

(** X3.  What [get_release] does with a listing that is not a mapping holding
    a sequence of named mappings: [None] for the listing or for its
    releases raises [TypeError] at line 93, a listing without [Releases]
    raises [KeyError] there, and the first record reached that is not a
    mapping, or has no [Name], raises at line 94, whatever follows it. *)
Theorem get_release_malformed name :
  get_release PNone name = Raise (TypeError 93)
  /\ (forall d, dict_get "Releases" d = None ->
                get_release (PDict d) name = Raise (KeyError 93 "Releases"))
  /\ (forall d, dict_get "Releases" d = Some PNone ->
                get_release (PDict d) name = Raise (TypeError 93))
  /\ (forall d pre r post,
         dict_get "Releases" d = Some (PList (pre ++ r :: post)) ->
         no_record name pre ->
         (forall dr, r <> PDict dr) ->
         get_release (PDict d) name = Raise (TypeError 94))
  /\ (forall d pre dr post,
         dict_get "Releases" d = Some (PList (pre ++ PDict dr :: post)) ->
         no_record name pre ->
         dict_get "Name" dr = None ->
         get_release (PDict d) name = Raise (KeyError 94 "Name")).
Proof.
  repeat match goal with |- _ /\ _ => split end.
  - reflexivity.
  - intros d Hd. unfold get_release. cbn [py_getitem]. now rewrite Hd.
  - intros d Hd. unfold get_release. cbn [py_getitem]. now rewrite Hd.
  - intros d pre r post Hd Hpre Hr. unfold get_release. cbn [py_getitem].
    rewrite Hd. cbn [res_bind py_iter]. clear Hd.
    induction Hpre as [|x pre (n & Hn & Hne) _ IH]; simpl.
    + destruct r as [| | | | | |dr]; try reflexivity. now destruct (Hr dr).
    + rewrite Hn. cbn [res_bind]. now rewrite Hne.
  - intros d pre dr post Hd Hpre Hn. unfold get_release. cbn [py_getitem].
    rewrite Hd. cbn [res_bind py_iter]. clear Hd.
    induction Hpre as [|x pre (n & Hm & Hne) _ IH]; simpl.
    + now rewrite Hn.
    + rewrite Hm. cbn [res_bind]. now rewrite Hne.
Qed.

(** *** The three queries on a command held as a string *)

Lemma dict_get_set_same k v d : dict_get k (dict_set k v d) = Some v.
Proof.
  induction d as [|[k' v'] d IH]; simpl.
  - now rewrite String.eqb_refl.
  - destruct (String.eqb k k') eqn:E; simpl; now rewrite E.
Qed.

Lemma dict_get_set_other k k' v d :
  k' <> k -> dict_get k' (dict_set k v d) = dict_get k' d.
Proof.
  intros Hk. induction d as [|[k0 v0] d IH]; simpl.
  - apply String.eqb_neq in Hk. now rewrite Hk.
  - destruct (String.eqb k k0) eqn:E; simpl.
    + apply String.eqb_eq in E as <-.
      apply String.eqb_neq in Hk. now rewrite Hk.
    + now rewrite IH.
Qed.

Lemma get_client_version_str c w :
  get_client_version module (PStr c) w =
  let probe := PStr (c ++ " version --client --template '{{ .Client.SemVer }}'") in
  let '(rc, out, err) := run_command module probe in
  if negb (rc =? 0)
  then (Exit (FailJson (failure_msg rc out err)
                (Some (spaced (c ++ " version --client --template '{{ .Client.SemVer }}'")))),
        ran w [probe])
  else (Ok out, ran w [probe]).
Proof.
  unfold get_client_version, bind, lift, run. cbn [py_add].
  destruct (run_command module _) as [[rc out] err].
  destruct (negb (rc =? 0)); [|reflexivity].
  now rewrite fail_executing_str.
Qed.

Lemma get_values_str c name w :
  get_values module (PStr c) name w =
  let get_command := PStr ((c ++ " get values --output=yaml ") ++ name) in
  let '(rc, out, err) := run_command module get_command in
  if negb (rc =? 0)
  then (Exit (FailJson (failure_msg rc out err)
                (Some (spaced ((c ++ " get values --output=yaml ") ++ name)))),
        ran w [get_command])
  else
    match yaml_safe_load module out with
    | Some v => (Ok v, ran w [get_command])
    | None => (Raise (LibraryError 88), ran w [get_command])
    end.
Proof.
  unfold get_values, bind, lift, run. cbn [py_add res_bind].
  destruct (run_command module _) as [[rc out] err].
  destruct (negb (rc =? 0)).
  - now rewrite fail_executing_str.
  - unfold safe_load. destruct (yaml_safe_load module out); reflexivity.
Qed.

Lemma is_none_iff v : is_none v = true <-> v = PNone.
Proof. destruct v; simpl; split; intros; congruence. Qed.

Lemma ran_ran w a b : ran (ran w a) b = ran w (a ++ b).
Proof. unfold ran. simpl. now rewrite app_assoc. Qed.

Lemma status_str c name w :
  status module (PStr c) name w =
  let list_command := PStr (c ++ " list --output=yaml") in
  let '(rc, out, err) := run_command module list_command in
  if negb (rc =? 0)
  then (Exit (FailJson (failure_msg rc out err)
                (Some (spaced (c ++ " list --output=yaml")))),
        ran w [list_command])
  else
    match yaml_safe_load module out with
    | None => (Raise (LibraryError 110), ran w [list_command])
    | Some listing =>
        match get_release listing name with
        | Ok release =>
            if is_none release then (Ok PNone, ran w [list_command])
            else
              match get_values module (PStr c) name (ran w [list_command]) with
              | (Ok values, w2) =>
                  (py_setitem 115 release "Values" values, w2)
              | (Raise e, w2) => (Raise e, w2)
              | (Exit f, w2) => (Exit f, w2)
              end
        | Raise e => (Raise e, ran w [list_command])
        | Exit f => (Exit f, ran w [list_command])
        end
    end.
Proof.
  unfold status at 1, bind at 1 2 3 4, lift at 1 2, run. cbn [py_add].
  fold (ran w [PStr (c ++ " list --output=yaml")]).
  destruct (run_command module _) as [[rc out] err]. cbv zeta.
  destruct (negb (rc =? 0)).
  - now rewrite fail_executing_str.
  - unfold safe_load.
    destruct (yaml_safe_load module out) as [listing|]; [|reflexivity].
    unfold ret at 1.
    destruct (get_release listing name) as [release| |]; try reflexivity.
    destruct (is_none release); [reflexivity|].
    unfold bind.
    destruct (get_values module (PStr c) name _) as [[values| |] w2];
      try reflexivity.
    unfold lift, ret.
    destruct (py_setitem 115 release "Values" values); reflexivity.
Qed.

(** X7.  [get_client_version] on a command held as a string runs the probe
    once: exit code zero returns the tool's stdout as it is, any other
    exit code ends the run in [fail_json] with the exit code, stdout and
    stderr in the message. *)
Theorem version_probe_contract c w rc out err :
  let probe := PStr (c ++ " version --client --template '{{ .Client.SemVer }}'") in
  run_command module probe = (rc, out, err) ->
  (rc = 0 -> get_client_version module (PStr c) w = (Ok out, ran w [probe]))
  /\ (rc <> 0 ->
      get_client_version module (PStr c) w =
      (Exit (FailJson (failure_msg rc out err)
               (Some (spaced (c ++ " version --client --template '{{ .Client.SemVer }}'")))),
       ran w [probe])).
Proof.
  intros probe Hrun. unfold probe in *. clear probe.
  rewrite get_client_version_str. cbv zeta. rewrite Hrun. split.
  - intros ->. reflexivity.
  - intros Hrc. apply Z.eqb_neq in Hrc. now rewrite Hrc.
Qed.

(** X8.  [get_values] on a command held as a string runs the get-values
    command for the release once: a nonzero exit ends the run in
    [fail_json]; on exit code zero the parsed stdout is returned, and
    stdout that does not parse raises out of line 88. *)
Theorem get_values_contract c name w rc out err :
  let get_command := PStr ((c ++ " get values --output=yaml ") ++ name) in
  run_command module get_command = (rc, out, err) ->
  (rc <> 0 ->
   get_values module (PStr c) name w =
   (Exit (FailJson (failure_msg rc out err)
            (Some (spaced ((c ++ " get values --output=yaml ") ++ name)))),
    ran w [get_command]))
  /\ (rc = 0 ->
      forall v, yaml_safe_load module out = Some v ->
                get_values module (PStr c) name w = (Ok v, ran w [get_command]))
  /\ (rc = 0 ->
      yaml_safe_load module out = None ->
      get_values module (PStr c) name w
      = (Raise (LibraryError 88), ran w [get_command])).
Proof.
  intros get_command Hrun. unfold get_command in *. clear get_command.
  rewrite get_values_str. cbv zeta. rewrite Hrun. repeat split.
  - intros Hrc. apply Z.eqb_neq in Hrc. now rewrite Hrc.
  - intros -> v ->. reflexivity.
  - intros -> ->. reflexivity.
Qed.

(** X4.  What [status] returns when it returns.  The command was a
    string, the list command exited with zero and its stdout parsed to a
    listing.  Either [get_release] found nothing in that listing, the
    result is [None] and the list command is the only one run; or
    [get_release] found a record in it, whose name equals the target,
    the get-values command exited with zero and its stdout parsed, and
    the result is that record with the parsed values stored under
    [Values], the list and get-values commands having been run in that
    order. *)
Theorem status_result command name w r w' :
  status module command name w = (Ok r, w') ->
  exists c out err listing,
    command = PStr c
    /\ run_command module (PStr (c ++ " list --output=yaml")) = (0, out, err)
    /\ yaml_safe_load module out = Some listing
    /\ ((r = PNone
         /\ get_release listing name = Ok PNone
         /\ w' = ran w [PStr (c ++ " list --output=yaml")])
        \/ (exists dr n out2 err2 values,
               get_release listing name = Ok (PDict dr)
               /\ dict_get "Name" dr = Some n
               /\ py_eq n (PStr name) = true
               /\ run_command module
                    (PStr ((c ++ " get values --output=yaml ") ++ name))
                  = (0, out2, err2)
               /\ yaml_safe_load module out2 = Some values
               /\ r = PDict (dict_set "Values" values dr)
               /\ w' = ran w [PStr (c ++ " list --output=yaml");
                              PStr ((c ++ " get values --output=yaml ") ++ name)])).
Proof.
  intros H.
  destruct command as [| | |c| | |];
    try (unfold status, bind, lift in H; simpl in H; discriminate).
  rewrite status_str in H. cbv zeta in H.
  destruct (run_command module (PStr (c ++ " list --output=yaml")))
    as [[rc out] err] eqn:Hrun.
  destruct (rc =? 0) eqn:Hrc; cbn [negb] in H; [|discriminate].
  apply Z.eqb_eq in Hrc. subst rc.
  destruct (yaml_safe_load module out) as [listing|] eqn:Hload;
    [|discriminate].
  exists c, out, err, listing.
  split; [reflexivity|]. split; [exact Hrun|]. split; [exact Hload|].
  destruct (get_release listing name) as [release| |] eqn:Hrel;
    [|discriminate|discriminate].
  destruct (is_none release) eqn:Hnone.
  - injection H as <- <-. left.
    apply is_none_iff in Hnone as ->. repeat split.
  - right. rewrite get_values_str in H. cbv zeta in H.
    destruct (run_command module
                (PStr ((c ++ " get values --output=yaml ") ++ name)))
      as [[rc2 out2] err2] eqn:Hrun2.
    destruct (rc2 =? 0) eqn:Hrc2; cbn [negb] in H; [|discriminate].
    apply Z.eqb_eq in Hrc2. subst rc2.
    destruct (yaml_safe_load module out2) as [values|] eqn:Hload2;
      [|discriminate].
    pose proof Hrel as Hfound. unfold get_release in Hfound.
    destruct (py_getitem 93 listing "Releases") as [releases| |];
      cbn [res_bind] in Hfound; try discriminate.
    destruct (py_iter 93 releases) as [items| |];
      cbn [res_bind] in Hfound; try discriminate.
    destruct (get_release_loop_some items name release Hfound)
      as (pre & post & dr & n & -> & _ & _ & Hn & Heq).
    { intros ->. discriminate Hnone. }
    cbn [py_setitem] in H. injection H as <- <-.
    exists dr, n, out2, err2, values.
    repeat split; auto.
    rewrite ran_ran. reflexivity.
Qed.

(** X5.  [status] only queries.  On a command that is not a string it raises
    at line 101 and runs nothing.  On a string it runs the list command
    first and at most the get-values command for the release after it,
    and nothing else; it makes no temporary file. *)
Theorem status_only_queries command name w :
  ((forall c, command <> PStr c) ->
   status module command name w = (Raise (TypeError 101), w))
  /\ (forall c, command = PStr c ->
        snd (status module command name w)
        = ran w [PStr (c ++ " list --output=yaml")]
        \/ snd (status module command name w)
           = ran w [PStr (c ++ " list --output=yaml");
                    PStr ((c ++ " get values --output=yaml ") ++ name)]).
Proof.
  split.
  - intros Hc. destruct command; try reflexivity. now destruct (Hc s).
  - intros c ->. rewrite status_str. cbv zeta.
    destruct (run_command module (PStr (c ++ " list --output=yaml")))
      as [[rc out] err].
    destruct (negb (rc =? 0)); [now left|].
    destruct (yaml_safe_load module out) as [listing|]; [|now left].
    destruct (get_release listing name) as [release| |]; try (now left).
    destruct (is_none release); [now left|].
    right. rewrite get_values_str. cbv zeta.
    destruct (run_command module
                (PStr ((c ++ " get values --output=yaml ") ++ name)))
      as [[rc2 out2] err2].
    destruct (negb (rc2 =? 0)); [now rewrite ran_ran|].
    destruct (yaml_safe_load module out2); now rewrite ran_ran.
Qed.

(** X6.  A listing [status] cannot read is fatal, after the list command has
    run and before any get-values command: stdout that does not parse
    raises out of line 110, and an empty document, which parses to
    [None], raises [TypeError] at line 93 instead of answering that the
    release is absent. *)
Theorem status_unreadable_listing c name w out err :
  run_command module (PStr (c ++ " list --output=yaml")) = (0, out, err) ->
  (yaml_safe_load module out = None ->
   status module (PStr c) name w
   = (Raise (LibraryError 110), ran w [PStr (c ++ " list --output=yaml")]))
  /\ (yaml_safe_load module out = Some PNone ->
      status module (PStr c) name w
      = (Raise (TypeError 93), ran w [PStr (c ++ " list --output=yaml")])).
Proof.
  intros Hrun. rewrite status_str. cbv zeta. rewrite Hrun. cbn [Z.eqb negb].
  split; intros ->; reflexivity.
Qed.


(** *** The decision of lines 226-242 *)

(** X9.  With a chart version given and a release observed in the desired
    namespace, the upgrade is decided exactly when the desired values
    differ from the observed ones and the observed chart differs from
    [chart_name-chart_version]; every other case is decided [Unchanged],
    a change of the values alone and a change of the chart alone
    included. *)
Theorem upgrade_iff_both_differ p d ns vals chart version :
  release_state p = present ->
  chart_version p = Some version ->
  dict_get "Namespace" d = Some ns ->
  py_ne (PStr (release_namespace p)) ns = false ->
  dict_get "Values" d = Some vals ->
  dict_get "Chart" d = Some chart ->
  (main_decide p (PDict d) = Ok (Deploy 237) <->
   py_ne (release_values p) vals = true
   /\ py_ne (PStr ((chart_name p ++ "-") ++ version)) chart = true)
  /\ (main_decide p (PDict d) = Ok Unchanged <->
      py_ne (release_values p) vals = false
      \/ py_ne (PStr ((chart_name p ++ "-") ++ version)) chart = false).
Proof.
  intros Hs Hver Hns Hne Hv Hc.
  rewrite (conjunctive_trigger p d ns vals chart version Hs Hver Hns Hne Hv Hc).
  destruct (py_ne (release_values p) vals);
    destruct (py_ne (PStr ((chart_name p ++ "-") ++ version)) chart);
    cbn [andb]; repeat split; intros; auto; try discriminate;
    match goal with
    | H : _ /\ _ |- _ => destruct H; discriminate
    | H : _ \/ _ |- _ => destruct H; discriminate
    end.
Qed.

Ltac decide_leaf :=
  repeat split; intros;
  repeat match goal with
    | H : _ /\ _ |- _ => destruct H
    | H : exists _, _ |- _ => destruct H
    | H : PDict _ = PDict _ |- _ => injection H as <-
    | H : Ok (Deploy _) = Ok (Deploy _) |- _ => injection H as <-
    end;
  try discriminate; try congruence; eauto;
  try (repeat eexists; repeat split; (reflexivity || eassumption)).


(** X10.  When each decision is taken.  [Delete] exactly for state [absent].
    The first install exactly for state [present] with no release
    observed.  The immutable-field failure exactly for state [present]
    with an observed mapping whose namespace differs from the desired
    one.  The upgrade only with a chart version given, the namespace
    unchanged, and both the values and the chart differing.  No other
    deploy is decided. *)
Theorem decision_inversion p release_status :
  (main_decide p release_status = Ok Delete <-> release_state p = absent)
  /\ (main_decide p release_status = Ok (Deploy 228) <->
      release_state p = present /\ release_status = PNone)
  /\ (main_decide p release_status = Ok FailImmutable <->
      release_state p = present
      /\ exists d ns, release_status = PDict d
                      /\ dict_get "Namespace" d = Some ns
                      /\ py_ne (PStr (release_namespace p)) ns = true)
  /\ (main_decide p release_status = Ok (Deploy 237) ->
      release_state p = present
      /\ exists d ns vals chart version,
           release_status = PDict d
           /\ chart_version p = Some version
           /\ dict_get "Namespace" d = Some ns
           /\ py_ne (PStr (release_namespace p)) ns = false
           /\ dict_get "Values" d = Some vals
           /\ py_ne (release_values p) vals = true
           /\ dict_get "Chart" d = Some chart
           /\ py_ne (PStr ((chart_name p ++ "-") ++ version)) chart = true)
  /\ (forall line, main_decide p release_status = Ok (Deploy line) ->
                   line = 228%nat \/ line = 237%nat).
Proof.
  unfold main_decide.
  destruct (release_state p) eqn:Hs; [|solve [decide_leaf]].
  destruct (is_none release_status) eqn:Hnone.
  { apply is_none_iff in Hnone as ->. solve [decide_leaf]. }
  assert (Hnn : release_status <> PNone).
  { intros ->. discriminate Hnone. }
  destruct release_status as [| | | | | |d];
    try (cbn [py_getitem res_bind]; solve [decide_leaf]).
  cbn [py_getitem].
  destruct (dict_get "Namespace" d) as [ns|] eqn:Hns; cbn [res_bind];
    [|solve [decide_leaf]].
  destruct (py_ne (PStr (release_namespace p)) ns) eqn:Hne; [solve [decide_leaf]|].
  destruct (dict_get "Values" d) as [vals|] eqn:Hv; cbn [res_bind];
    [|solve [decide_leaf]].
  destruct (py_ne (release_values p) vals) eqn:Hvne; [|solve [decide_leaf]].
  destruct (chart_version p) as [version|] eqn:Hver;
    cbn [of_opt py_add res_bind]; [|solve [decide_leaf]].
  destruct (dict_get "Chart" d) as [chart|] eqn:Hc; cbn [res_bind];
    [|solve [decide_leaf]].
  destruct (py_ne (PStr ((chart_name p ++ "-") ++ version)) chart) eqn:Hcne;
    solve [decide_leaf].
Qed.

(** *** The arms of [main] *)

Lemma deploy_with_repo_raises command ns name value chart version url user
  pass w :
  exists e, deploy module command ns name value chart version (Some url)
              user pass w = (Raise e, w).
Proof.
  unfold deploy, deploy_build, bind, lift.
  destruct (py_add 125 command (PStr " upgrade -i ")) as [dc| |] eqn:E.
  2: eauto.
  2: destruct command; discriminate.
  apply py_add_str_inv in E as (c & -> & ->).
  destruct version as [v|]; simpl; eauto.
Qed.

(** X12.  Lines 226-245 leave the world as they found it, for every command
    value, every parameter set and every observed release: whichever arm
    is taken, no command is run and no temporary file is made. *)
Theorem reconcile_leaves_world command p release_status w :
  snd (main_reconcile module command p release_status w) = w.
Proof.
  rewrite main_reconcile_decide.
  destruct (main_decide p release_status) as [[line| | |]| |];
    try reflexivity.
  - cbn [main_arm]. unfold main_deploy, bind.
    destruct (deploy_with_repo_raises command (release_namespace p)
                (release_name p) (release_values p) (chart_name p)
                (chart_version p) (repo_url p) (repo_username p)
                (repo_password p) w) as [e ->].
    reflexivity.
  - cbn [main_arm]. unfold bind.
    destruct (delete_raises module command (release_name p) true w) as [e ->].
    reflexivity.
Qed.

(** X13.  What the deploy arm makes of the string [deploy] returns.  The arm
    is [deploy] followed by the unpacking of its result into [out] and
    [err] and by line 245.  The unpacking succeeds only on a string of
    two characters, which become [stdout] and [stderr] of a changed
    result; a string of any other length raises [ValueError] at the line
    of the call. *)
Theorem deploy_output_unpacked line command p s w :
  main_deploy module line command p =
  bind (deploy module command (release_namespace p) (release_name p)
          (release_values p) (chart_name p) (chart_version p)
          (Some (repo_url p)) (repo_username p) (repo_password p))
       (main_deploy_tail line)
  /\ (forall a b,
         s = String a (String b EmptyString) ->
         main_deploy_tail line (PStr s) w =
         (Exit (ExitJson (PBool true) (PStr (String a EmptyString))
                  (PStr (String b EmptyString))), w))
  /\ (String.length s <> 2%nat ->
      main_deploy_tail line (PStr s) w = (Raise (ValueError line), w)).
Proof.
  split; [reflexivity|]. split.
  - intros a b ->. reflexivity.
  - intros Hlen. destruct s as [|a [|b [|c s]]]; try reflexivity.
    now destruct Hlen.
Qed.

(** X14.  Which runs of [deploy] leave a temporary file behind.  A command
    held as a string, with no chart version, no repository and values
    that are not [None], reaches line 137: one file is made, and the
    raise that follows leaves it in place.  With a chart version or a
    repository given, with values [None], or with a command that is not
    a string, [deploy] raises before line 137 and the world is as it
    was. *)
Theorem deploy_temp_file command ns name value chart version url user pass w :
  ((exists c, command = PStr c) ->
   version = None -> url = None -> is_none value = false ->
   tempfiles (snd (deploy module command ns name value chart version url
                     user pass w)) = S (tempfiles w)
   /\ executed (snd (deploy module command ns name value chart version url
                       user pass w)) = executed w)
  /\ ((forall c, command <> PStr c) \/ version <> None \/ url <> None
      \/ is_none value = true ->
      snd (deploy module command ns name value chart version url user pass w)
      = w).
Proof.
  split.
  - intros [c ->] -> -> Hv.
    unfold deploy, deploy_build, bind, lift, ret, make_temp, dump.
    cbn [py_add]. rewrite Hv. cbn [negb].
    destruct (mkstemp module (tempfiles w)) as [fd path].
    split; reflexivity.
  - intros H.
    unfold deploy, deploy_build, bind, lift.
    destruct (py_add 125 command (PStr " upgrade -i ")) as [dc| |] eqn:E.
    2: reflexivity.
    2: destruct command; discriminate.
    apply py_add_str_inv in E as (c & -> & ->).
    destruct version as [v|]; [reflexivity|].
    destruct url as [u|]; [reflexivity|].
    destruct (is_none value) eqn:Hv; [reflexivity|].
    destruct H as [H|[H|[H|H]]]; try congruence.
    now destruct (H c).
Qed.

(** *** The answer of the delete command *)

Lemma prefix_iff n h :
  String.prefix n h = true <-> exists post, h = n ++ post.
Proof.
  revert h. induction n as [|a n IH]; intros h.
  - destruct h; simpl; split; eauto.
  - destruct h as [|b h]; simpl.
    + split; [discriminate|]. intros [post H]. discriminate.
    + destruct (ascii_dec a b) as [->|Hab].
      * split.
        -- intros H. apply IH in H as [post ->]. eauto.
        -- intros [post H]. injection H as ->. apply IH. eauto.
      * split; [discriminate|]. intros [post H]. injection H as H _.
        now destruct Hab.
Qed.

(** [str_in] is containment as a run of consecutive characters. *)
Lemma str_in_iff n h :
  str_in n h = true <-> exists pre post, h = pre ++ n ++ post.
Proof.
  induction h as [|a h IH]; cbn [str_in].
  - rewrite orb_false_r. split.
    + intros H. apply prefix_iff in H as [post H]. exists "", post. exact H.
    + intros (pre & post & H). apply prefix_iff.
      destruct pre; [|discriminate]. simpl in H. eauto.
  - rewrite orb_true_iff. split.
    + intros [H|H].
      * apply prefix_iff in H as [post H]. exists "", post. exact H.
      * apply IH in H as (pre & post & ->).
        exists (String a pre), post. reflexivity.
    + intros (pre & post & H). destruct pre as [|b pre].
      * left. apply prefix_iff. simpl in H. eauto.
      * right. simpl in H. injection H as _ ->. apply IH. eauto.
Qed.

(** X15.  Lines 167-177 answer [(False, out)] exactly when the exit code is 1
    and stderr holds the text [Error: release: <name> not found]
    somewhere inside it, and [(True, out)] exactly when the exit code is
    0; stdout is passed on as it is in both. *)
Theorem delete_result_iff c name rc out err w :
  (delete_result (PStr c) name rc out err w
   = (Ok (PTuple [PBool false; PStr out]), w)
   <-> rc = 1
       /\ exists pre post,
            err = pre ++ ("Error: release: " ++ name ++ " not found") ++ post)
  /\ (delete_result (PStr c) name rc out err w
      = (Ok (PTuple [PBool true; PStr out]), w)
      <-> rc = 0).
Proof.
  unfold delete_result. rewrite <- str_in_iff.
  destruct (rc =? 1) eqn:H1; cbn [andb].
  - apply Z.eqb_eq in H1 as ->.
    destruct (str_in ("Error: release: " ++ name ++ " not found") err);
      cbn [Z.eqb negb]; repeat split; intros;
      try discriminate; try tauto;
      try (rewrite fail_executing_str in *; discriminate).
    destruct H; discriminate.
  - apply Z.eqb_neq in H1.
    destruct (rc =? 0) eqn:H0; cbn [negb].
    + apply Z.eqb_eq in H0 as ->. unfold ret.
      repeat split; intros; try discriminate; try tauto.
    + apply Z.eqb_neq in H0. rewrite fail_executing_str.
      repeat split; intros; try discriminate; try tauto.
Qed.

(** *** The failure report *)

Lemma spaced_cons a b s :
  spaced (String a (String b s)) =
  String a (String " " (spaced (String b s))).
Proof. reflexivity. Qed.

Lemma evens_spaced s : evens (spaced s) = s.
Proof.
  induction s as [|a s IH]; [reflexivity|].
  destruct s as [|b s]; [reflexivity|].
  rewrite spaced_cons. cbn [evens]. now rewrite IH.
Qed.

Lemma length_spaced s :
  String.length (spaced s) = (2 * String.length s - 1)%nat.
Proof.
  induction s as [|a s IH]; [reflexivity|].
  destruct s as [|b s]; [reflexivity|].
  rewrite spaced_cons. cbn [String.length] in *. rewrite IH. lia.
Qed.

Lemma str_app_assoc (a b c : string) : (a ++ b) ++ c = a ++ b ++ c.
Proof. induction a as [|x a IH]; simpl; [reflexivity|]. now rewrite IH. Qed.

Lemma str_app_nil_r (a : string) : a ++ "" = a.
Proof. induction a as [|x a IH]; simpl; [reflexivity|]. now rewrite IH. Qed.

(** X16.  The failure report of a command held as a string.  The message
    carries the exit code, stdout and stderr.  The [command] field is
    the work of [' '.join] on a string: a blank between every two
    characters, so that dropping every second character gives the command
    back, and for a command of two characters or more the field is not
    the command that was run. *)
Theorem failure_report line rc out err c w :
  exists msg reported,
    @fail_executing unit line rc out err (PStr c) w
    = (Exit (FailJson msg (Some reported)), w)
    /\ str_in (str_of_Z rc) msg = true
    /\ str_in ("stdout: " ++ out) msg = true
    /\ str_in ("stderr: " ++ err) msg = true
    /\ evens reported = c
    /\ String.length reported = (2 * String.length c - 1)%nat
    /\ ((2 <= String.length c)%nat -> reported <> c).
Proof.
  exists (failure_msg rc out err), (spaced c).
  split; [apply fail_executing_str|].
  unfold failure_msg. repeat split.
  - apply str_in_iff.
    exists "Failure when executing Helm command. Exited ".
    eexists. reflexivity.
  - apply str_in_iff.
    exists ("Failure when executing Helm command. Exited " ++ str_of_Z rc
            ++ "." ++ newline), (newline ++ "stderr: " ++ err).
    now rewrite !str_app_assoc.
  - apply str_in_iff.
    exists ("Failure when executing Helm command. Exited " ++ str_of_Z rc
            ++ "." ++ newline ++ "stdout: " ++ out ++ newline), "".
    now rewrite !str_app_assoc, str_app_nil_r.
  - apply evens_spaced.
  - apply length_spaced.
  - intros Hlen Heq. pose proof (length_spaced c) as H.
    rewrite Heq in H. lia.
Qed.


(** *** The order of keys *)

Lemma distinct_NoDup ks : distinct ks = true -> NoDup ks.
Proof.
  induction ks as [|k ks IH]; simpl; intros H; constructor.
  - apply andb_true_iff in H as [H _]. apply negb_true_iff in H.
    intros Hin. assert (E : existsb (String.eqb k) ks = true).
    { apply existsb_exists. exists k. split; [exact Hin|].
      apply String.eqb_refl. }
    congruence.
  - apply andb_true_iff in H as [_ H]. auto.
Qed.

Lemma dict_get_perm k d d' :
  Permutation d d' -> NoDup (map fst d) -> dict_get k d = dict_get k d'.
Proof.
  induction 1 as [|[k0 v0] l l' Hp IH|[k1 v1] [k2 v2] l|l l' l'' H1 IH1 H2 IH2];
    intros Hnd.
  - reflexivity.
  - simpl. inversion Hnd; subst. now rewrite IH.
  - simpl. destruct (String.eqb k k2) eqn:E2; [|reflexivity].
    destruct (String.eqb k k1) eqn:E1; [|reflexivity].
    apply String.eqb_eq in E1, E2. subst.
    simpl in Hnd. inversion Hnd; subst. destruct H1. now left.
  - rewrite IH1 by exact Hnd. apply IH2.
    apply (Permutation_NoDup (Permutation_map fst H1) Hnd).
Qed.

Lemma items_in_same_lookup (d2 d2' d : list (string * pyval)) :
  (forall k, dict_get k d2 = dict_get k d2') ->
  items_in py_eq d2 d = items_in py_eq d2' d.
Proof.
  intros H. induction d as [|[k v] d IH]; simpl; [reflexivity|].
  now rewrite H, IH.
Qed.

Lemma items_in_perm (d2 d d' : list (string * pyval)) :
  Permutation d d' -> items_in py_eq d2 d = items_in py_eq d2 d'.
Proof.
  induction 1 as [|[k0 v0] l l' Hp IH|[k1 v1] [k2 v2] l|l l' l'' H1 IH1 H2 IH2].
  - reflexivity.
  - simpl. now rewrite IH.
  - simpl. rewrite !andb_assoc. f_equal. apply andb_comm.
  - congruence.
Qed.

(** [v == d] does not look at the order of the items of [d]. *)
Lemma py_eq_perm_r v d d' :
  Permutation d d' -> distinct (map fst d) = true ->
  py_eq v (PDict d) = py_eq v (PDict d').
Proof.
  intros Hp Hd. destruct v; try reflexivity. simpl.
  rewrite (Permutation_length Hp). f_equal.
  apply items_in_same_lookup. intros k.
  apply dict_get_perm; [exact Hp|now apply distinct_NoDup].
Qed.

(** [d == v] does not look at the order of the items of [d]. *)
Lemma py_eq_perm_l v d d' :
  Permutation d d' -> py_eq (PDict d) v = py_eq (PDict d') v.
Proof.
  intros Hp. destruct v; try reflexivity. simpl.
  rewrite (Permutation_length Hp). f_equal.
  now apply items_in_perm.
Qed.

(** X17.  The decision does not depend on the order in which the values are
    written: the desired values with their items in another order are
    decided alike against every observed release, and so is an observed
    release whose values come back with their items in another order. *)
Theorem decision_ignores_key_order p release_status d dv dv' ov ov' :
  Permutation dv dv' ->
  Permutation ov ov' ->
  distinct (map fst ov) = true ->
  main_decide (with_values (PDict dv) p) release_status
  = main_decide (with_values (PDict dv') p) release_status
  /\ main_decide p (PDict (dict_set "Values" (PDict ov) d))
     = main_decide p (PDict (dict_set "Values" (PDict ov') d)).
Proof.
  intros Hdv Hov Hdist. split.
  - unfold main_decide, with_values; cbn [release_state release_namespace
      release_values chart_name chart_version].
    destruct (release_state p); [|reflexivity].
    destruct (is_none release_status); [reflexivity|].
    destruct (py_getitem 231 release_status "Namespace") as [ns| |];
      try reflexivity.
    cbn [res_bind].
    destruct (py_ne (PStr (release_namespace p)) ns); [reflexivity|].
    destruct (py_getitem 235 release_status "Values") as [vals| |];
      try reflexivity.
    cbn [res_bind]. unfold py_ne.
    now rewrite (py_eq_perm_l vals dv dv' Hdv).
  - unfold main_decide.
    destruct (release_state p); [|reflexivity].
    cbn [is_none py_getitem].
    rewrite !dict_get_set_same.
    rewrite !(dict_get_set_other "Values" "Namespace") by discriminate.
    rewrite !(dict_get_set_other "Values" "Chart") by discriminate.
    destruct (dict_get "Namespace" d) as [ns|]; [|reflexivity].
    cbn [res_bind].
    destruct (py_ne (PStr (release_namespace p)) ns); [reflexivity|].
    unfold py_ne.
    now rewrite (py_eq_perm_r (release_values p) ov ov' Hov Hdist).
Qed.

Lemma status_ok_values command name w r w' :
  status module command name w = (Ok r, w') ->
  r = PNone \/ exists d values, r = PDict d /\ dict_get "Values" d = Some values.
Proof.
  intros H.
  destruct command as [| | |c| | |];
    try (unfold status, bind, lift in H; simpl in H; discriminate).
  rewrite status_str in H. cbv zeta in H.
  destruct (run_command module (PStr (c ++ " list --output=yaml")))
    as [[rc out] err].
  destruct (negb (rc =? 0)); [discriminate|].
  destruct (yaml_safe_load module out) as [listing|]; [|discriminate].
  destruct (get_release listing name) as [release| |];
    [|discriminate|discriminate].
  destruct (is_none release).
  - injection H as <- _. now left.
  - destruct (get_values module (PStr c) name _) as [[values| |] w2];
      try discriminate.
    destruct release; try discriminate.
    cbn [py_setitem] in H. injection H as <- _.
    right. exists (dict_set "Values" values d), values.
    split; [reflexivity|apply dict_get_set_same].
Qed.

(** X18.  [status] and the decision fit together on the values: whatever
    [status] returns, line 235 finds [Values] in it, so the decision
    never raises [KeyError] for that key; and when [status] returns
    [None] with state [present] the first install is decided. *)
Theorem decision_after_status command name w r w' p :
  status module command name w = (Ok r, w') ->
  main_decide p r <> Raise (KeyError 235 "Values")
  /\ (release_state p = present -> r = PNone ->
      main_decide p r = Ok (Deploy 228)).
Proof.
  intros H. split.
  - destruct (status_ok_values command name w r w' H)
      as [->|(d & values & -> & Hv)].
    + unfold main_decide. destruct (release_state p); discriminate.
    + unfold main_decide. destruct (release_state p); [|discriminate].
      cbn [is_none py_getitem]. rewrite Hv.
      destruct (dict_get "Namespace" _) as [ns|]; cbn [res_bind];
        [|discriminate].
      destruct (py_ne (PStr (release_namespace p)) ns); [discriminate|].
      destruct (py_ne (release_values p) values); [|discriminate].
      destruct (py_add 236 (PStr (chart_name p ++ "-"))
                  (of_opt (chart_version p))) as [ident| |] eqn:E;
        cbn [res_bind]; try discriminate.
      * destruct (dict_get "Chart" _) as [chart|]; cbn [res_bind];
          [|discriminate].
        destruct (py_ne ident chart); discriminate.
      * destruct (chart_version p); simpl in E;
          [discriminate E|injection E as <-; discriminate].
  - intros Hs ->. unfold main_decide. now rewrite Hs.
Qed.


End Behaviour.

(** ** Concrete runs of the further properties *)

Lemma get_release_none_iff_witness :
  get_release (PDict [("Releases", PList [app_record])]) "web" = Ok PNone.
Proof.
  apply (get_release_none_iff [("Releases", PList [app_record])]
           [app_record] "web" eq_refl).
  constructor; [|constructor].
  exists (PStr "app"). split; reflexivity.
Defined.

Lemma get_release_first_match_witness :
  get_release
    (PDict [("Releases",
             PList [PDict [("Name", PStr "web"); ("Namespace", PStr "default")];
                    PDict [("Name", PStr "app"); ("Namespace", PStr "first")];
                    PDict [("Name", PStr "app"); ("Namespace", PStr "second")]])])
    "app"
  = Ok (PDict [("Name", PStr "app"); ("Namespace", PStr "first")]).
Proof.
  apply (get_release_first_match
           [("Releases",
             PList [PDict [("Name", PStr "web"); ("Namespace", PStr "default")];
                    PDict [("Name", PStr "app"); ("Namespace", PStr "first")];
                    PDict [("Name", PStr "app"); ("Namespace", PStr "second")]])]
           _ "app" _ eq_refl).
  exists [PDict [("Name", PStr "web"); ("Namespace", PStr "default")]],
    [PDict [("Name", PStr "app"); ("Namespace", PStr "second")]],
    (PStr "app").
  repeat split.
  constructor; [|constructor].
  exists (PStr "web"). split; reflexivity.
Defined.

Lemma get_release_malformed_witness :
  get_release (PDict [("Next", PStr "")]) "app"
  = Raise (KeyError 93 "Releases")
  /\ get_release (PDict [("Releases", PList [app_record; PStr "app"])]) "web"
     = Raise (TypeError 94)
  /\ get_release
       (PDict [("Releases", PList [PDict [("Namespace", PStr "default")]])])
       "app"
     = Raise (KeyError 94 "Name").
Proof.
  destruct (get_release_malformed "app") as (_ & Hkey & _ & _ & Hname).
  destruct (get_release_malformed "web") as (_ & _ & _ & Htype & _).
  split; [|split].
  - apply Hkey. reflexivity.
  - apply (Htype [("Releases", PList [app_record; PStr "app"])]
             [app_record] (PStr "app") [] eq_refl).
    + constructor; [|constructor]. exists (PStr "app"). split; reflexivity.
    + discriminate.
  - apply (Hname
             [("Releases", PList [PDict [("Namespace", PStr "default")]])]
             [] [("Namespace", PStr "default")] [] eq_refl);
      [constructor|reflexivity].
Defined.

Lemma version_probe_contract_witness :
  get_client_version bare (PStr "helm") w0
  = (Ok "v2.14.3",
     ran w0 [PStr "helm version --client --template '{{ .Client.SemVer }}'"]).
Proof.
  apply (version_probe_contract bare "helm" w0 0 "v2.14.3" "" eq_refl).
  reflexivity.
Defined.

Lemma get_values_contract_witness :
  get_values demo (PStr "helm") "app" w0
  = (Ok app_values, ran w0 [PStr "helm get values --output=yaml app"])
  /\ get_values bare (PStr "helm") "app" w0
     = (Raise (LibraryError 88),
        ran w0 [PStr "helm get values --output=yaml app"]).
Proof.
  split.
  - apply (get_values_contract demo "helm" "app" w0 0 "{replicas: 1}" ""
             eq_refl); reflexivity.
  - apply (get_values_contract bare "helm" "app" w0 0 "replicas: [" ""
             eq_refl); reflexivity.
Defined.

Lemma status_result_witness :
  exists c out err listing,
    PStr "helm" = PStr c
    /\ run_command demo (PStr (c ++ " list --output=yaml")) = (0, out, err)
    /\ yaml_safe_load demo out = Some listing
    /\ get_release listing "app" = Ok app_record.
Proof.
  destruct (status_result demo (PStr "helm") "app" w0 app_observed
              (ran w0 [PStr "helm list --output=yaml";
                       PStr "helm get values --output=yaml app"])
              eq_refl)
    as (c & out & err & listing & Hc & Hrun & Hload & Hcases).
  exists c, out, err, listing.
  split; [exact Hc|]. split; [exact Hrun|]. split; [exact Hload|].
  destruct Hcases as [(Hnone & _)|(dr & n & out2 & err2 & values & Hrel & Hn
                                    & Heq & Hrun2 & Hload2 & Hr & _)].
  - discriminate Hnone.
  - rewrite Hrel. injection Hc as <-.
    vm_compute in Hrun2. injection Hrun2 as <- _.
    vm_compute in Hload2. injection Hload2 as <-.
    assert (Hdr : dr = [("Name", PStr "app"); ("Namespace", PStr "default");
                        ("Chart", PStr "mychart-1.0.0")]).
    { vm_compute in Hrun. injection Hrun as <- _.
      vm_compute in Hload. injection Hload as <-.
      vm_compute in Hrel. now injection Hrel as <-. }
    now rewrite Hdr.
Defined.

Lemma status_only_queries_witness :
  status demo (PList [PStr "helm"]) "app" w0 = (Raise (TypeError 101), w0).
Proof.
  apply (proj1 (status_only_queries demo (PList [PStr "helm"]) "app" w0)).
  intros c. discriminate.
Defined.

Lemma status_unreadable_listing_witness :
  status bare (PStr "helm") "app" w0
  = (Raise (TypeError 93), ran w0 [PStr "helm list --output=yaml"]).
Proof.
  apply (proj2 (status_unreadable_listing bare "helm" "app" w0 "" "" eq_refl)).
  reflexivity.
Defined.

Lemma upgrade_iff_both_differ_witness :
  main_decide
    (with_version (Some "2.0.0")
       (with_values (PDict [("replicas", PInt 2)]) app_spec))
    app_observed
  = Ok (Deploy 237).
Proof.
  apply (proj1 (upgrade_iff_both_differ
                  (with_version (Some "2.0.0")
                     (with_values (PDict [("replicas", PInt 2)]) app_spec))
                  [("Name", PStr "app"); ("Namespace", PStr "default");
                   ("Chart", PStr "mychart-1.0.0"); ("Values", app_values)]
                  (PStr "default") app_values (PStr "mychart-1.0.0") "2.0.0"
                  eq_refl eq_refl eq_refl eq_refl eq_refl eq_refl)).
  split; reflexivity.
Defined.

Lemma decision_inversion_witness :
  main_decide (with_state absent app_spec) app_observed = Ok Delete
  /\ main_decide app_spec PNone = Ok (Deploy 228).
Proof.
  split.
  - apply (proj1 (decision_inversion (with_state absent app_spec)
                    app_observed)).
    reflexivity.
  - apply (proj1 (proj2 (decision_inversion app_spec PNone))).
    split; reflexivity.
Defined.

Lemma deploy_output_unpacked_witness :
  main_deploy_tail 228 (PStr "ok") w0
  = (Exit (ExitJson (PBool true) (PStr "o") (PStr "k")), w0)
  /\ main_deploy_tail 228 (PStr "Release app has been upgraded.") w0
     = (Raise (ValueError 228), w0).
Proof.
  split.
  - apply (proj1 (proj2 (deploy_output_unpacked demo 228 (PStr "helm")
                           app_spec "ok" w0)) "o"%char "k"%char).
    reflexivity.
  - apply (proj2 (proj2 (deploy_output_unpacked demo 228 (PStr "helm")
                           app_spec "Release app has been upgraded." w0))).
    discriminate.
Defined.

Lemma deploy_temp_file_witness :
  tempfiles (snd (deploy bare (PStr "helm") "default" "app" (PDict [])
                    "mychart" None None None None w0)) = 1%nat
  /\ snd (deploy bare (PStr "helm") "default" "app" (PDict []) "mychart"
            (Some "1.0.0") None None None w0) = w0.
Proof.
  split.
  - apply (proj1 (deploy_temp_file bare (PStr "helm") "default" "app"
                    (PDict []) "mychart" None None None None w0));
      eauto.
  - apply (proj2 (deploy_temp_file bare (PStr "helm") "default" "app"
                    (PDict []) "mychart" (Some "1.0.0") None None None w0)).
    right. left. discriminate.
Defined.

Lemma delete_result_iff_witness :
  delete_result (PStr "helm delete --purge app") "app" 1 ""
    "Error: release: app not found" w0
  = (Ok (PTuple [PBool false; PStr ""]), w0).
Proof.
  apply (proj1 (delete_result_iff "helm delete --purge app" "app" 1 ""
                  "Error: release: app not found" w0)).
  split; [reflexivity|]. exists "", "". reflexivity.
Defined.

Lemma failure_report_witness :
  exists msg reported,
    @fail_executing unit 107 1 "" "Error: unknown command"
      (PStr "helm list --output=yaml") w0
    = (Exit (FailJson msg (Some reported)), w0)
    /\ reported <> "helm list --output=yaml".
Proof.
  destruct (failure_report 107 1 "" "Error: unknown command"
              "helm list --output=yaml" w0)
    as (msg & reported & H & _ & _ & _ & _ & _ & Hne).
  exists msg, reported. split; [exact H|].
  apply Hne. simpl. lia.
Defined.

Lemma decision_ignores_key_order_witness :
  main_decide
    (with_values (PDict [("replicas", PInt 1); ("debug", PBool true)]) app_spec)
    app_observed
  = main_decide
      (with_values (PDict [("debug", PBool true); ("replicas", PInt 1)]) app_spec)
      app_observed.
Proof.
  apply (proj1 (decision_ignores_key_order app_spec app_observed []
                  [("replicas", PInt 1); ("debug", PBool true)]
                  [("debug", PBool true); ("replicas", PInt 1)]
                  [] []
                  (perm_swap _ _ _) (perm_nil _) eq_refl)).
Defined.

Lemma decision_after_status_witness :
  main_decide app_spec app_observed <> Raise (KeyError 235 "Values").
Proof.
  apply (proj1 (decision_after_status demo (PStr "helm") "app" w0 app_observed
                  (ran w0 [PStr "helm list --output=yaml";
                           PStr "helm get values --output=yaml app"])
                  app_spec eq_refl)).
Defined.
